(** * Retrieval core of the chatbot: vector store, namespaces, similarity search

    A shallow embedding of [train_data.py] (class [VectorStoreManager]),
    of [AgentTools.train_agent_from_text] ([agent_tools.py]) and of the
    retrieval half of [AgenticBot.answer_question] ([agentic_bot.py]).

    Python objects are mutated in place; here every method takes the object
    and the outside world (file system, embedding provider) and returns the
    new ones.  Exceptions are values of [result]. *)

From Stdlib Require Import ZArith List Ascii String Floats Lia.
From stdpp Require Import base option list sorting gmap strings.

(** ** Python values used by the store *)

(** An embedding is a Python [List[float]]: IEEE 754 binary64 numbers. *)
Abbreviation vector := (list float).

(** Chunk metadata, e.g. [{"source": "url:..."}]; [{}] is the empty map. *)
Abbreviation meta := (gmap string string).

(** ** Exceptions *)

Inductive exn : Type :=
  | EmbeddingError      (* raised by the embedding provider *)
  | ZeroDivisionError   (* float division by zero *)
  | IndexError          (* list index out of range *)
  | KeyError.           (* missing dict key *)

Inductive result (A : Type) : Type :=
  | Ok (a : A)
  | Raise (e : exn).
Arguments Ok {A} a.
Arguments Raise {A} e.

(** Sequencing inside a [try] block: the first exception ends the block.
    stdpp's [x ← e; k] notation is used for it. *)
#[global] Instance result_ret : MRet result := fun _ a => Ok a.
#[global] Instance result_bind : MBind result := fun _ _ k r =>
  match r with
  | Ok a => k a
  | Raise e => Raise e
  end.

(** [xs[i]] on a Python list, for a non-negative [i]. *)
Definition py_index {A : Type} (xs : list A) (i : nat) : result A :=
  match xs !! i with
  | Some x => Ok x
  | None => Raise IndexError
  end.

(** ** The outside world *)

(** An agent's record, a JSON object whose values are all strings
    ([id], [name], [greeting], ..., [vector_store_path]). *)
Abbreviation agent_data := (gmap string string).

(** The contents of a file.  [_save_data] pickles a dict with the three
    keys; [_load_data] reads each key with [data.get(key, [])], so a key may
    be absent.  [_save_agent] dumps an agent's record as JSON.  [Corrupt] is
    anything that neither unpickles to a dict nor parses as JSON. *)
Inductive file : Type :=
  | Pickled (docs : option (list string))
            (embs : option (list vector))
            (metas : option (list meta))
  | Json (data : agent_data)
  | Corrupt.

(** The calls made to the embedding provider, oldest first. *)
Inductive gw_call : Type :=
  | EmbedDocuments (chunks : list string)
  | EmbedQuery (query : string).

Record world : Type := World {
  files : gmap string file;     (* path of a regular file -> contents *)
  dirs : gset string;           (* directories that exist *)
  gw_log : list gw_call         (* provider calls so far *)
}.

(** ** os.path *)

Definition sep : ascii := "/"%char.

Fixpoint last_char (s : string) : option ascii :=
  match s with
  | EmptyString => None
  | String c EmptyString => Some c
  | String _ s' => last_char s'
  end.

Definition starts_with_sep (s : string) : bool :=
  match s with
  | String c _ => bool_decide (c = sep)
  | EmptyString => false
  end.

(** [os.path.join(a, b)] (posixpath): an absolute [b] replaces [a]; no
    separator is added after an empty [a] or one that ends in [/]. *)
Definition os_path_join (a b : string) : string :=
  if starts_with_sep b then b
  else match last_char a with
       | None => b
       | Some c => if bool_decide (c = sep) then a +:+ b
                   else a +:+ String sep b
       end.

Definition os_path_exists (p : string) (w : world) : bool :=
  bool_decide (is_Some (files w !! p)) || bool_decide (p ∈ dirs w).

(** [os.makedirs(p, exist_ok=True)]; only [p] itself is recorded, the code
    never asks about its parents. *)
Definition os_makedirs (p : string) (w : world) : world :=
  World (files w) ({[ p ]} ∪ dirs w) (gw_log w).

(** ** VectorStoreManager *)

Record VectorStoreManager : Type := VSM {
  persist_directory : string;
  documents : list string;
  doc_embeddings : list vector;
  metadatas : list meta
}.

Definition pkl_path (dir : string) : string :=
  os_path_join dir "vector_store.pkl".

(** [_save_data]: one dict with the three lists, dumped to
    [persist_directory/vector_store.pkl]. *)
Definition _save_data (self : VectorStoreManager) (w : world) : world :=
  let data := Pickled (Some (documents self))
                      (Some (doc_embeddings self))
                      (Some (metadatas self)) in
  World (<[ pkl_path (persist_directory self) := data ]> (files w))
        (dirs w) (gw_log w).

(** [_load_data]: a missing file leaves the lists as they are; so does a
    file that fails to load (the exception is caught and only printed). *)
Definition _load_data (self : VectorStoreManager) (w : world)
  : VectorStoreManager :=
  let filepath := pkl_path (persist_directory self) in
  if os_path_exists filepath w then
    match files w !! filepath with
    | Some (Pickled docs embs metas) =>
        VSM (persist_directory self)
            (default [] docs) (default [] embs) (default [] metas)
    | _ => self
    end
  else self.

(** [__init__]: create the directory, start empty, then load. *)
Definition VectorStoreManager_init (persist_directory : string) (w : world)
  : VectorStoreManager * world :=
  let w1 := os_makedirs persist_directory w in
  (_load_data (VSM persist_directory [] [] []) w1, w1).

(** ** Floating point, as Python evaluates it *)

Module PyFloat.

(** [sum(...)] starts from the int [0] and adds from the left. *)
Definition sum (xs : list float) : float :=
  fold_left PrimFloat.add xs PrimFloat.zero.

(** [x ** 0.5]; on the sums of squares it is applied to (never negative)
    this is the square root. *)
Definition pow_half (x : float) : float := PrimFloat.sqrt x.

(** [x == 0] *)
Definition is_zero (x : float) : bool := PrimFloat.eqb x PrimFloat.zero.

(** [x / y]: Python raises where IEEE 754 would return an infinity or
    a NaN. *)
Definition truediv (x y : float) : result float :=
  if is_zero y then Raise ZeroDivisionError else Ok (PrimFloat.div x y).

Definition is_nan (x : float) : bool := negb (PrimFloat.eqb x x).


End PyFloat.

(** [_cosine_similarity].  The early [return 0] returns the int [0]; every
    use of the result compares it as a number, where it equals [0.0]. *)
Definition _cosine_similarity (a b : vector) : result float :=
  let dot_product := PyFloat.sum (zip_with PrimFloat.mul a b) in
  let magnitude_a := PyFloat.pow_half (PyFloat.sum (map (fun x => PrimFloat.mul x x) a)) in
  let magnitude_b := PyFloat.pow_half (PyFloat.sum (map (fun x => PrimFloat.mul x x) b)) in
  if PyFloat.is_zero magnitude_a || PyFloat.is_zero magnitude_b then Ok PrimFloat.zero
  else PyFloat.truediv dot_product (PrimFloat.mul magnitude_a magnitude_b).

(** ** Sorting [(similarity, index)] tuples *)

(** [t1 < t2] on tuples: the first components decide unless they are [==]. *)
Definition tuple_lt (t1 t2 : float * nat) : bool :=
  if PrimFloat.eqb (fst t1) (fst t2) then Nat.ltb (snd t1) (snd t2)
  else PrimFloat.ltb (fst t1) (fst t2).

Section Sort.
Context {A : Type} (lt : A -> A -> bool).

(** One step of a stable insertion: [x] goes behind every element that is
    not greater than it. *)
Fixpoint insert_sorted (x : A) (l : list A) : list A :=
  match l with
  | [] => [x]
  | y :: l' => if lt x y then x :: l else y :: insert_sorted x l'
  end.

(** [list.sort()]: stable, ascending, using [<] only.  Where [<] orders
    the elements totally, every stable sort returns this list. *)
Definition py_sort (l : list A) : list A :=
  fold_left (fun acc x => insert_sorted x acc) l [].

(** [list.sort(reverse=True)]: the list is reversed, sorted ascending and
    reversed again, which keeps equal elements in their original order. *)
Definition py_sort_reverse (l : list A) : list A :=
  reverse (py_sort (reverse l)).
End Sort.

(** [xs[:k]] for any int [k]; a negative [k] counts from the end. *)
Definition py_slice_to {A : Type} (k : Z) (xs : list A) : list A :=
  if (0 <=? k)%Z then take (Z.to_nat k) xs
  else take (Z.to_nat (Z.of_nat (length xs) + k)) xs.

(** [enumerate(xs)] *)
Definition enumerate {A : Type} (xs : list A) : list (nat * A) :=
  imap (fun i x => (i, x)) xs.

(** A result of [similarity_search]:
    [{'page_content': ..., 'metadata': ...}]. *)
Record search_result : Type := SearchResult {
  page_content : string;
  metadata : meta
}.

(** ** The store's operations

    The text splitter ([RecursiveCharacterTextSplitter.split_text]) and the
    embedding provider ([OllamaEmbeddings]) are libraries outside the
    repository.  The splitter is a function of the text.  The provider's
    answer may depend on every call made to it before; [None] stands for
    a call that raises. *)

Section Store.

Variable split_text : string -> list string.
Variable embed_documents_reply : list gw_call -> list string -> option (list vector).
Variable embed_query_reply : list gw_call -> string -> option vector.

Definition log_call (c : gw_call) (w : world) : world :=
  World (files w) (dirs w) (gw_log w ++ [c]).

(** [self.embeddings.embed_documents(chunks)] *)
Definition embed_documents (chunks : list string) (w : world)
  : result (list vector) * world :=
  (match embed_documents_reply (gw_log w) chunks with
   | Some vs => Ok vs
   | None => Raise EmbeddingError
   end, log_call (EmbedDocuments chunks) w).

(** [self.embeddings.embed_query(query)] *)
Definition embed_query (query : string) (w : world) : result vector * world :=
  (match embed_query_reply (gw_log w) query with
   | Some v => Ok v
   | None => Raise EmbeddingError
   end, log_call (EmbedQuery query) w).

(** [metadatas[idx] if metadatas and idx < len(metadatas) else {}] *)
Definition base_meta (metadatas : option (list meta)) (idx : nat) : result meta :=
  match metadatas with
  | Some ((_ :: _) as ms) =>
      if (idx <? length ms)%nat then py_index ms idx else Ok ∅
  | _ => Ok ∅
  end.

(** The loop over [enumerate(texts)], from index [idx] on, with the lists
    [chunks] and [metas] built so far. *)
Fixpoint chunk_loop (metadatas : option (list meta)) (idx : nat)
    (texts : list string) (chunks : list string) (metas : list meta)
  : result (list string * list meta) :=
  match texts with
  | [] => Ok (chunks, metas)
  | text :: texts' =>
      let splits := split_text text in
      let chunks := chunks ++ splits in
      base ← base_meta metadatas idx;
      chunk_loop metadatas (S idx) texts' chunks
                 (metas ++ replicate (length splits) base)
  end.

(** [add_texts]: what it returns or raises, the object and the world
    afterwards. *)
Definition add_texts (self : VectorStoreManager) (texts : list string)
    (metadatas_arg : option (list meta)) (w : world)
  : result unit * VectorStoreManager * world :=
  match chunk_loop metadatas_arg 0 texts [] [] with
  | Raise e => (Raise e, self, w)
  | Ok (chunks, metas) =>
      match chunks with
      | [] => (Ok tt, self, w)
      | _ :: _ =>
          match embed_documents chunks w with
          | (Ok new_embeddings, w1) =>
              let self' := VSM (persist_directory self)
                               (documents self ++ chunks)
                               (doc_embeddings self ++ new_embeddings)
                               (metadatas self ++ metas) in
              (Ok tt, self', _save_data self' w1)
          | (Raise e, w1) => (Raise e, self, w1)
          end
      end
  end.

(** The similarity loop of [similarity_search]. *)
Fixpoint similarities_from (query_embedding : vector) (i : nat)
    (embs : list vector) : result (list (float * nat)) :=
  match embs with
  | [] => Ok []
  | doc_embedding :: embs' =>
      similarity ← _cosine_similarity query_embedding doc_embedding;
      rest ← similarities_from query_embedding (S i) embs';
      Ok ((similarity, i) :: rest)
  end.

(** [top_k_indices] *)
Definition top_k_indices (self : VectorStoreManager) (query_embedding : vector)
    (k : Z) : result (list nat) :=
  similarities ← similarities_from query_embedding 0 (doc_embeddings self);
  Ok (map snd (py_slice_to k (py_sort_reverse tuple_lt similarities))).

(** One entry of [results]. *)
Definition result_at (self : VectorStoreManager) (idx : nat) : result search_result :=
  page ← py_index (documents self) idx;
  md ← (if (idx <? length (metadatas self))%nat
        then py_index (metadatas self) idx else Ok ∅);
  Ok (SearchResult page md).

Fixpoint results_for (self : VectorStoreManager) (idxs : list nat)
  : result (list search_result) :=
  match idxs with
  | [] => Ok []
  | idx :: idxs' =>
      r ← result_at self idx;
      rest ← results_for self idxs';
      Ok (r :: rest)
  end.

(** The body of the [try] block, after the query was embedded. *)
Definition search_body (self : VectorStoreManager) (query_embedding : vector)
    (k : Z) : result (list search_result) :=
  idxs ← top_k_indices self query_embedding k;
  results_for self idxs.

(** [similarity_search]: every exception inside the [try] block is caught,
    printed, and answered with [return []]. *)
Definition similarity_search (self : VectorStoreManager) (query : string)
    (k : Z) (w : world) : result (list search_result) * world :=
  match documents self with
  | [] => (Ok [], w)
  | _ :: _ =>
      let '(r, w1) := embed_query query w in
      match (query_embedding ← r; search_body self query_embedding k) with
      | Ok results => (Ok results, w1)
      | Raise _ => (Ok [], w1)
      end
  end.

End Store.

(** ** Strings and paths used by the agent registry *)

(** [s] without the suffix [suf], when it ends with it:
    [filename[:-5]] under [filename.endswith('.json')]. *)
Fixpoint strip_suffix (suf s : string) : option string :=
  if String.eqb s suf then Some EmptyString
  else match s with
       | EmptyString => None
       | String c s' => String c <$> strip_suffix suf s'
       end.

Fixpoint strip_prefix (pre s : string) : option string :=
  match pre, s with
  | EmptyString, _ => Some s
  | String c pre', String d s' =>
      if bool_decide (c = d) then strip_prefix pre' s' else None
  | String _ _, EmptyString => None
  end.

Fixpoint has_sep (s : string) : bool :=
  match s with
  | EmptyString => false
  | String c s' => bool_decide (c = sep) || has_sep s'
  end.

(** What [os.path.join(dir, name)] puts in front of a relative [name]. *)
Definition dir_prefix (dir : string) : string :=
  match last_char dir with
  | None => dir
  | Some c => if bool_decide (c = sep) then dir else dir +:+ String sep EmptyString
  end.

(** The name under which [os.listdir(dir)] reports the file at path [p], if
    [p] lies directly in [dir]. *)
Definition entry_name (dir p : string) : option string :=
  name ← strip_prefix (dir_prefix dir) p;
  if has_sep name || bool_decide (name = EmptyString) then None else Some name.

(** A directory prefix: empty, or ending in [/]. *)
Definition dir_like (p : string) : Prop := p = "" ∨ last_char p = Some sep.

(** ** AgentTools *)

Record AgentTools : Type := Tools {
  base_dir : string;
  vector_dir : string;
  vector_manager : VectorStoreManager;
  agents : gmap string agent_data
}.

Definition agent_file (base_dir agent_id : string) : string :=
  os_path_join base_dir (agent_id +:+ ".json").

(** [_save_agent] *)
Definition _save_agent (self : AgentTools) (agent_id : string)
    (data : agent_data) (w : world) : world :=
  World (<[ agent_file (base_dir self) agent_id := Json data ]> (files w))
        (dirs w) (gw_log w).

(** One round of the loop of [_load_agents], for the file at path [p]. *)
Definition load_agent_entry (base_dir : string) (pf : string * file)
  : option (string * agent_data) :=
  filename ← entry_name base_dir pf.1;
  agent_id ← strip_suffix ".json" filename;
  match pf.2 with
  | Json data => Some (agent_id, data)
  | _ => None        (* json.load raises; the error is printed *)
  end.

(** [_load_agents].  The order of [os.listdir] does not matter: different
    file names give different agent ids. *)
Definition _load_agents (base_dir : string) (w : world) : gmap string agent_data :=
  if os_path_exists base_dir w
  then list_to_map (omap (load_agent_entry base_dir) (map_to_list (files w)))
  else ∅.

(** [AgentTools.__init__] *)
Definition AgentTools_init (base_dir vector_dir : string) (w : world)
  : AgentTools * world :=
  let w1 := os_makedirs vector_dir (os_makedirs base_dir w) in
  let '(vm, w2) := VectorStoreManager_init vector_dir w1 in
  (Tools base_dir vector_dir vm (_load_agents base_dir w2), w2).

(** What the dict returned by a tool says. *)
Inductive tool_error : Type :=
  | AgentNotFound        (* "Agent not found" *)
  | Caught (e : exn).    (* [str(e)] of a caught exception *)

Inductive tool_reply : Type :=
  | Success (message : string)
  | Failure (error : tool_error).

(** The agent's own directory under [vector_dir]. *)
Definition agent_vector_dir (vector_dir agent_id : string) : string :=
  os_path_join vector_dir ("agent_" +:+ agent_id).

(** What the retrieval step of [answer_question] ends with. *)
Inductive retrieval : Type :=
  | Docs (docs : list search_result)
  | UnknownAgent          (* "... couldn't find the agent with ID ..." *)
  | NotTrainedYet         (* "... haven't been trained with any knowledge yet ..." *)
  | AccessError (e : exn). (* "I encountered an error accessing my knowledge base ..." *)

Section Agents.

Variable split_text : string -> list string.
Variable embed_documents_reply : list gw_call -> list string -> option (list vector).
Variable embed_query_reply : list gw_call -> string -> option vector.

(** [train_agent_from_text]; [now] is [datetime.now().isoformat()]. *)
Definition train_agent_from_text (self : AgentTools) (agent_id text_content : string)
    (source now : string) (w : world) : tool_reply * AgentTools * world :=
  match agents self !! agent_id with
  | None => (Failure AgentNotFound, self, w)
  | Some data =>
      let dir := agent_vector_dir (vector_dir self) agent_id in
      let w1 := os_makedirs dir w in
      let '(agent_vector_manager, w2) := VectorStoreManager_init dir w1 in
      match add_texts split_text embed_documents_reply agent_vector_manager
                      [text_content] (Some [{[ "source" := source ]}]) w2 with
      | (Raise e, _, w3) => (Failure (Caught e), self, w3)
      | (Ok _, _, w3) =>
          let data' := <[ "vector_store_path" := dir ]>
                         (<[ "updated_at" := now ]>
                            (<[ "knowledge_base_status" := "trained" ]> data)) in
          let self' := Tools (base_dir self) (vector_dir self) (vector_manager self)
                             (<[ agent_id := data' ]> (agents self)) in
          let w4 := _save_agent self' agent_id data' w3 in
          match data' !! "name" with
          | Some name =>
              (Success ("Agent '" +:+ name +:+ "' trained successfully"), self', w4)
          | None => (Failure (Caught KeyError), self', w4)
          end
      end
  end.

(** The retrieval step of [answer_question] (lines 49-75), for the bot's
    own [vector_manager] and an optional [agent_id].  With an agent the
    search runs inside a [try] block; without one an exception would leave
    [answer_question]. *)
Definition answer_question_docs (vector_manager : VectorStoreManager)
    (question : string) (agent_id : option string) (w : world)
  : result retrieval * world :=
  match agent_id with
  | Some ((String _ _) as agent_id) =>
      let '(agent_tools, w1) := AgentTools_init "agents" "vector_store" w in
      match agents agent_tools !! agent_id with
      | None => (Ok UnknownAgent, w1)
      | Some agent =>
          match agent !! "vector_store_path" with
          | Some ((String _ _) as vector_store_path) =>
              if os_path_exists vector_store_path w1 then
                let '(agent_vector_manager, w2) :=
                  VectorStoreManager_init vector_store_path w1 in
                match similarity_search embed_query_reply agent_vector_manager
                                        question 5 w2 with
                | (Ok docs, w3) => (Ok (Docs docs), w3)
                | (Raise e, w3) => (Ok (AccessError e), w3)
                end
              else (Ok NotTrainedYet, w1)
          | _ => (Ok NotTrainedYet, w1)
          end
      end
  | _ =>
      match similarity_search embed_query_reply vector_manager question 5 w with
      | (Ok docs, w1) => (Ok (Docs docs), w1)
      | (Raise e, w1) => (Raise e, w1)
      end
  end.

End Agents.

(** ** More of AgentTools *)

(** What [create_agent] returns on success. *)
Record create_reply : Type := Created {
  created_message : string;
  created_agent_id : string;
  created_agent : agent_data
}.

(** What [get_agent_status] returns. *)
Inductive status_reply : Type :=
  | AgentStatus (agent : agent_data) (knowledge_items : nat)
  | SystemStatus (total_agents total_knowledge_items : nat)
  | StatusNotFound.         (* "Agent not found" *)

(** What [add_knowledge] returns. *)
Inductive knowledge_reply : Type :=
  | KnowledgeAdded (content_length : nat)   (* "Knowledge added successfully" *)
  | KnowledgeFailed (e : exn).              (* "Failed to add knowledge: ..." *)

(** What [train_agent_from_url] returns. *)
Inductive url_reply : Type :=
  | UrlTrained (r : tool_reply)   (* what [train_agent_from_text] returned *)
  | UrlNoContent                  (* "No content found at URL" *)
  | UrlExtractionFailed.          (* the extractor raised; [str(e)] *)

(** What the [DELETE /agents/<agent_id>] route answers. *)
Inductive delete_reply : Type :=
  | Deleted          (* 200, "Agent deleted successfully" *)
  | DeleteNotFound   (* 404, "Agent not found" *)
  | DeleteError.     (* 500, [os.remove] raised *)

(** [create_agent]; [uuid] is [str(uuid.uuid4())], [created_at] and
    [updated_at] are the two readings of [datetime.now().isoformat()]. *)
Definition create_agent (self : AgentTools) (name greeting description : string)
    (uuid created_at updated_at : string) (w : world)
  : create_reply * AgentTools * world :=
  let agent_id := uuid in
  let agent_data : agent_data :=
    <[ "id" := agent_id ]>
      (<[ "name" := name ]>
         (<[ "greeting" := greeting ]>
            (<[ "description" := description ]>
               (<[ "created_at" := created_at ]>
                  (<[ "updated_at" := updated_at ]>
                     (<[ "knowledge_base_status" := "empty" ]> ∅)))))) in
  let w1 := _save_agent self agent_id agent_data w in
  let self' := Tools (base_dir self) (vector_dir self) (vector_manager self)
                     (<[ agent_id := agent_data ]> (agents self)) in
  (Created ("Created agent '" +:+ name +:+ "' successfully!") agent_id agent_data,
   self', w1).

(** [get_agent_status], as the class has it in the end: its second
    definition replaces the first. *)
Definition get_agent_status (self : AgentTools) (agent_id : option string)
  : status_reply :=
  match agent_id with
  | Some ((String _ _) as agent_id) =>
      match agents self !! agent_id with
      | Some agent =>
          if bool_decide (agent = ∅) then StatusNotFound
          else AgentStatus agent (length (documents (vector_manager self)))
      | None => StatusNotFound
      end
  | _ => SystemStatus (size (agents self))
                      (length (documents (vector_manager self)))
  end.

(** [os.remove(p)] of a regular file. *)
Definition os_remove (p : string) (w : world) : world :=
  World (delete p (files w)) (dirs w) (gw_log w).

(** The body of the [DELETE /agents/<agent_id>] route of [app.py], for the
    application's [agent_tools], whose [base_dir] is [AGENTS_DIR]. *)
Definition delete_agent (agent_tools : AgentTools) (agent_id : string) (w : world)
  : delete_reply * AgentTools * world :=
  match get_agent_status agent_tools (Some agent_id) with
  | StatusNotFound => (DeleteNotFound, agent_tools, w)
  | _ =>
      let tools' := Tools (base_dir agent_tools) (vector_dir agent_tools)
                          (vector_manager agent_tools)
                          (delete agent_id (agents agent_tools)) in
      let agent_file := agent_file (base_dir agent_tools) agent_id in
      if os_path_exists agent_file w then
        match files w !! agent_file with
        | Some _ => (Deleted, tools', os_remove agent_file w)
        | None => (DeleteError, tools', w)     (* a directory *)
        end
      else (Deleted, tools', w)
  end.

Section MoreAgents.

Variable split_text : string -> list string.
Variable embed_documents_reply : list gw_call -> list string -> option (list vector).

(** [extract_text_from_url(url)]; [None] stands for a call that raises. *)
Variable extract_text_from_url : string -> option string.

(** [train_agent_from_url] *)
Definition train_agent_from_url (self : AgentTools) (agent_id url now : string)
    (w : world) : url_reply * AgentTools * world :=
  match agents self !! agent_id with
  | None => (UrlTrained (Failure AgentNotFound), self, w)
  | Some _ =>
      match extract_text_from_url url with
      | None => (UrlExtractionFailed, self, w)
      | Some "" => (UrlNoContent, self, w)
      | Some content =>
          let '(r, self', w') :=
            train_agent_from_text split_text embed_documents_reply self
              agent_id content ("url:" +:+ url) now w in
          (UrlTrained r, self', w')
      end
  end.

(** [add_knowledge]: the text goes to the tools' own (global) manager. *)
Definition add_knowledge (self : AgentTools) (text : string) (w : world)
  : knowledge_reply * AgentTools * world :=
  let '(r, vm', w') :=
    add_texts split_text embed_documents_reply (vector_manager self)
              [text] None w in
  let self' := Tools (base_dir self) (vector_dir self) vm' (agents self) in
  match r with
  | Ok _ => (KnowledgeAdded (String.length text), self', w')
  | Raise e => (KnowledgeFailed e, self', w')
  end.

End MoreAgents.

(** ** AgenticBot *)

(** [sep.join(parts)] *)
Fixpoint py_join (sep : string) (parts : list string) : string :=
  match parts with
  | [] => ""
  | p :: parts' =>
      match parts' with
      | [] => p
      | _ :: _ => p +:+ sep +:+ py_join sep parts'
      end
  end.

(** [xs[-n:]] for a positive [n] *)
Definition py_last {A : Type} (n : nat) (xs : list A) : list A :=
  drop (length xs - n) xs.

Definition newline : string := String (ascii_of_nat 10) "".

(** The two lines the loop of [_format_history] appends for each exchange. *)
Definition history_lines (history : list (string * string)) : list string :=
  concat ((λ qa, ["User: " +:+ qa.1; "Assistant: " +:+ qa.2]) <$> history).

(** [_format_history] *)
Definition _format_history (history : list (string * string)) : string :=
  py_join newline (history_lines (py_last 8 history)).

(** [RAG_PROMPT.format(context=..., history=..., question=...)] *)
Definition RAG_PROMPT_format (context history question : string) : string :=
  newline
  +:+ "You are an expert assistant. Use the provided context to answer the question accurately and concisely."
  +:+ newline
  +:+ "If the answer is not in the context, say you don't know. Do not hallucinate."
  +:+ newline +:+ newline
  +:+ "Context:" +:+ newline +:+ context +:+ newline +:+ newline
  +:+ "Chat History:" +:+ newline +:+ history +:+ newline +:+ newline
  +:+ "Question: " +:+ question +:+ newline +:+ newline
  +:+ "Helpful answer:" +:+ newline.

(** How a call of [answer_question] ends. *)
Inductive outcome (E : Type) : Type :=
  | Returned (answer : string) (sources : list meta) (emotion_data : E)
  | SearchRaised (e : exn)   (* raised by the search on the bot's own manager *)
  | LlmRaised.               (* raised by [self.llm.invoke] *)
Arguments Returned {E} answer sources emotion_data.
Arguments SearchRaised {E} e.
Arguments LlmRaised {E}.

Section Bot.

Variable embed_query_reply : list gw_call -> string -> option vector.

(** The emotion detector ([emotion_detector.py]) matches regular
    expressions; it is taken as two functions of the question. *)
Context {E : Type}.
Variable detect_user_emotion : string -> E.
Variable get_emotion_context_for_prompt : string -> string.

(** The language model: its answer to a prompt after the prompts in the log;
    [None] stands for a call that raises. *)
Variable llm_reply : list string -> string -> option string.

(** [str(e)] *)
Variable str_exn : exn -> string.

(** [answer_question]; [llm_log] are the prompts sent to the model so far. *)
Definition answer_question (vector_manager : VectorStoreManager)
    (question : string) (chat_history : option (list (string * string)))
    (agent_id : option string) (w : world) (llm_log : list string)
  : outcome E * world * list string :=
  let emotion_data := detect_user_emotion question in
  let emotion_context := get_emotion_context_for_prompt question in
  match answer_question_docs embed_query_reply vector_manager question agent_id w with
  | (Raise e, w1) => (SearchRaised e, w1, llm_log)
  | (Ok UnknownAgent, w1) =>
      (Returned ("I'm sorry, I couldn't find the agent with ID "
                 +:+ default "" agent_id +:+ ".") [] emotion_data, w1, llm_log)
  | (Ok NotTrainedYet, w1) =>
      (Returned "I'm sorry, but I haven't been trained with any knowledge yet. Please train me with some documents or URLs first."
                [] emotion_data, w1, llm_log)
  | (Ok (AccessError e), w1) =>
      (Returned ("I encountered an error accessing my knowledge base: "
                 +:+ str_exn e) [] emotion_data, w1, llm_log)
  | (Ok (Docs docs), w1) =>
      let context := py_join (newline +:+ newline) (page_content <$> docs) in
      let history_str := _format_history (default [] chat_history) in
      let prompt := RAG_PROMPT_format context history_str question in
      let enhanced_prompt :=
        match emotion_context with
        | "" => prompt
        | String _ _ => emotion_context +:+ newline +:+ newline +:+ prompt
        end in
      match llm_reply llm_log enhanced_prompt with
      | Some answer =>
          (Returned answer (metadata <$> docs) emotion_data, w1,
           llm_log ++ [enhanced_prompt])
      | None => (LlmRaised, w1, llm_log ++ [enhanced_prompt])
      end
  end.

End Bot.

(** ** Vocabulary of the specification *)

(** The three parallel sequences have one length. *)
Definition parity (self : VectorStoreManager) : Prop :=
  length (documents self) = length (doc_embeddings self) ∧
  length (doc_embeddings self) = length (metadatas self).

(** The provider's contract for batches: one vector per text. *)
Definition length_preserving
    (reply : list gw_call -> list string -> option (list vector)) : Prop :=
  ∀ log chunks vs, reply log chunks = Some vs → length vs = length chunks.

(** All chunks of a list of texts, in order. *)
Definition chunks_of (split_text : string -> list string) (texts : list string)
  : list string :=
  concat (split_text <$> texts).

(** Where chunk number [c] of text number [i] lands in the store. *)
Definition chunk_position (split_text : string -> list string)
    (self : VectorStoreManager) (texts : list string) (i c : nat) : nat :=
  length (documents self) + length (chunks_of split_text (take i texts)) + c.

(** The metadata supplied for text number [idx], if any. *)
Definition supplied_meta (metadatas : option (list meta)) (idx : nat) : option meta :=
  metadatas ≫= (.!! idx).

(** A caller that makes one [add_texts] call after the other and carries on
    after an exception. *)
Fixpoint run_add_texts (split_text : string -> list string)
    (reply : list gw_call -> list string -> option (list vector))
    (calls : list (list string * option (list meta)))
    (self : VectorStoreManager) (w : world) : VectorStoreManager * world :=
  match calls with
  | [] => (self, w)
  | (texts, metadatas) :: calls' =>
      let '(_, self', w') := add_texts split_text reply self texts metadatas w in
      run_add_texts split_text reply calls' self' w'
  end.

(** The documents held by the snapshot at path [p], as [_load_data] would
    read them. *)
Definition stored_documents (w : world) (p : string) : list string :=
  match files w !! p with
  | Some (Pickled docs _ _) => default [] docs
  | _ => []
  end.

(** The similarity of stored document number [i] to a query embedding, when
    it can be computed. *)
Definition similarity_of (self : VectorStoreManager) (query_embedding : vector)
    (i : nat) : option float :=
  e ← doc_embeddings self !! i;
  match _cosine_similarity query_embedding e with
  | Ok s => Some s
  | Raise _ => None
  end.


(** The vector store path that the record of an agent names, as
    [answer_question] finds it under ["agents"]. *)
Definition recorded_path (w : world) (agent_id : string) : option string :=
  match files w !! agent_file "agents" agent_id with
  | Some (Json data) => data !! "vector_store_path"
  | _ => None
  end.

(** How [similarity_search] builds the result for stored document [i]. *)
Definition is_result_for (self : VectorStoreManager) (i : nat) (r : search_result)
  : Prop :=
  documents self !! i = Some (page_content r) ∧
  metadata r = default ∅ (metadatas self !! i).

(** The metadata list the loop of [add_texts] builds for [texts], numbered
    from [idx]: the supplied entry, or [{}], once per chunk. *)
Fixpoint metas_of (split_text : string -> list string)
    (mds : option (list meta)) (idx : nat) (texts : list string) : list meta :=
  match texts with
  | [] => []
  | text :: texts' =>
      replicate (length (split_text text)) (default ∅ (supplied_meta mds idx))
        ++ metas_of split_text mds (S idx) texts'
  end.

(** The three lists held by the snapshot at path [p], as [_load_data] would
    read them; all empty when there is no readable snapshot. *)
Definition stored_lists (w : world) (p : string)
  : list string * list vector * list meta :=
  match files w !! p with
  | Some (Pickled docs embs metas) =>
      (default [] docs, default [] embs, default [] metas)
  | _ => ([], [], [])
  end.

(** ** Sample worlds, providers and stores

    Used to run the model on concrete inputs. *)

(** One chunk per non-empty text. *)
Definition ex_split (text : string) : list string :=
  if bool_decide (text = "") then [] else [text].

(** A provider that answers every batch with one unit vector per text. *)
Definition ex_embed_documents (log : list gw_call) (chunks : list string)
  : option (list vector) :=
  Some ((λ _, [1%float; 0%float]) <$> chunks).

(** A provider that answers its first call and fails afterwards. *)
Definition ex_embed_once (log : list gw_call) (chunks : list string)
  : option (list vector) :=
  match log with
  | [] => Some ((λ _, [1%float; 0%float]) <$> chunks)
  | _ :: _ => None
  end.

(** A provider whose vectors have one component only. *)
Definition ex_embed_short (log : list gw_call) (chunks : list string)
  : option (list vector) :=
  Some ((λ _, [1%float]) <$> chunks).

Definition ex_embed_query (log : list gw_call) (query : string) : option vector :=
  Some [1%float; 0%float].

(** A provider that is down. *)
Definition ex_query_down (log : list gw_call) (query : string) : option vector :=
  None.

Definition ex_world : world := World ∅ ∅ [].

Definition ex_empty_store : VectorStoreManager := VSM "vs" [] [] [].

(** The store of the spec's search example. *)
Definition ex_store_xyz : VectorStoreManager :=
  VSM "vs" ["x"; "y"; "z"]
      [[1%float; 0%float]; [0%float; 1%float]; [1%float; 1%float]]
      [∅; ∅; ∅].

(** Two documents with the same embedding. *)
Definition ex_store_tie : VectorStoreManager :=
  VSM "vs" ["first"; "second"]
      [[1%float; 0%float]; [1%float; 0%float]] [∅; ∅].

(** A world with the records of two agents, ["a"] and ["b"]. *)
Definition ex_agents_world : world :=
  World (<[ "agents/a.json" := Json {[ "name" := "A" ]} ]>
           (<[ "agents/b.json" := Json {[ "name" := "B" ]} ]> ∅))
        ∅ [].

Definition ex_tools : AgentTools :=
  (AgentTools_init "agents" "vector_store" ex_agents_world).1.

(** The same after agent ["b"] was trained with one text. *)
Definition ex_trained_b : tool_reply * AgentTools * world :=
  train_agent_from_text ex_split ex_embed_documents ex_tools
    "b" "what b knows" "user_input" "2024-01-01T00:00:00"
    (AgentTools_init "agents" "vector_store" ex_agents_world).2.

(** A provider that is down for batches too. *)
Definition ex_embed_down (log : list gw_call) (chunks : list string)
  : option (list vector) :=
  None.

(** The world in which [ex_tools] lives. *)
Definition ex_tools_world : world :=
  (AgentTools_init "agents" "vector_store" ex_agents_world).2.

(** A world whose snapshot under ["vs"] does not unpickle. *)
Definition ex_corrupt_world : world :=
  World {[ "vs/vector_store.pkl" := Corrupt ]} ∅ [].

(** A page extractor, an emotion detector and a language model. *)
Definition ex_extract (url : string) : option string := Some "page text".

Definition ex_detect (question : string) : string := "neutral".

Definition ex_emotion_context (question : string) : string := "".

Definition ex_llm (log : list string) (prompt : string) : option string :=
  Some "an answer".

Definition ex_str_exn (e : exn) : string := "error".

(** Eight exchanges. *)
Definition ex_history : list (string * string) :=
  [("q1", "a1"); ("q2", "a2"); ("q3", "a3"); ("q4", "a4");
   ("q5", "a5"); ("q6", "a6"); ("q7", "a7"); ("q8", "a8")].

(** * Properties of the vector store *)

Section StoreFacts.

Context (split_text : string -> list string).
Context (embed_documents_reply : list gw_call -> list string -> option (list vector)).
Context (embed_query_reply : list gw_call -> string -> option vector).

(** The metadata lookup of the loop never leaves the list. *)
Lemma base_meta_total mds idx :
  base_meta mds idx = Ok (default ∅ (supplied_meta mds idx)).
Proof.
  unfold base_meta, supplied_meta, py_index.
  destruct mds as [[|m ms]|]; simpl; try done.
  destruct (Nat.ltb_spec idx (S (length ms))) as [Hlt|Hge].
  - destruct (lookup_lt_is_Some_2 (m :: ms) idx) as [x Hx]; [done|].
    by rewrite Hx.
  - by rewrite (lookup_ge_None_2 (m :: ms) idx).
Qed.

Lemma chunk_loop_total mds texts : ∀ idx chunks metas,
  chunk_loop split_text mds idx texts chunks metas
  = Ok (chunks ++ chunks_of split_text texts,
        metas ++ metas_of split_text mds idx texts).
Proof.
  induction texts as [|text texts IH]; intros idx chunks metas; simpl.
  - by rewrite !app_nil_r.
  - rewrite base_meta_total. simpl. rewrite IH.
    unfold chunks_of. simpl. by rewrite <- !app_assoc.
Qed.

Lemma length_metas_of mds texts : ∀ idx,
  length (metas_of split_text mds idx texts) = length (chunks_of split_text texts).
Proof.
  induction texts as [|text texts IH]; intros idx; [done|].
  unfold chunks_of in *. simpl.
  rewrite !length_app, length_replicate, IH. done.
Qed.

(** The three ways [add_texts] can end. *)
Lemma add_texts_cases self texts mds w :
  let chunks := chunks_of split_text texts in
  (chunks = [] ∧
   add_texts split_text embed_documents_reply self texts mds w = (Ok tt, self, w)) ∨
  (chunks ≠ [] ∧ embed_documents_reply (gw_log w) chunks = None ∧
   add_texts split_text embed_documents_reply self texts mds w
   = (Raise EmbeddingError, self, log_call (EmbedDocuments chunks) w)) ∨
  (∃ vs, chunks ≠ [] ∧ embed_documents_reply (gw_log w) chunks = Some vs ∧
   let self' := VSM (persist_directory self) (documents self ++ chunks)
                    (doc_embeddings self ++ vs)
                    (metadatas self ++ metas_of split_text mds 0 texts) in
   add_texts split_text embed_documents_reply self texts mds w
   = (Ok tt, self', _save_data self' (log_call (EmbedDocuments chunks) w))).
Proof.
  intros chunks. unfold add_texts.
  rewrite chunk_loop_total. simpl. fold chunks.
  destruct chunks as [|c cs] eqn:Hc; [by left|right].
  unfold embed_documents.
  destruct (embed_documents_reply (gw_log w) (c :: cs)) as [vs|] eqn:Hr.
  - right. exists vs. done.
  - left. done.
Qed.

Lemma add_texts_parity self texts mds w :
  length_preserving embed_documents_reply → parity self →
  parity (add_texts split_text embed_documents_reply self texts mds w).1.2.
Proof.
  intros Hlen [Hde Hem].
  destruct (add_texts_cases self texts mds w) as [[_ ->]|[(_ & _ & ->)|(vs & _ & Hr & ->)]];
    [done|done|].
  apply Hlen in Hr. unfold parity. simpl.
  rewrite !length_app, length_metas_of. lia.
Qed.

Lemma run_add_texts_parity calls : ∀ self w,
  length_preserving embed_documents_reply → parity self →
  parity (run_add_texts split_text embed_documents_reply calls self w).1.
Proof.
  induction calls as [|[texts mds] calls IH]; intros self w Hlen Hpar; [done|].
  simpl.
  pose proof (add_texts_parity self texts mds w Hlen Hpar) as Hstep.
  destruct (add_texts split_text embed_documents_reply self texts mds w)
    as [[r self'] w']. simpl in Hstep.
  by apply IH.
Qed.

(** C1. Parity and atomic failure: from a store whose three sequences have
    one length, and with a provider that answers a batch with one vector per
    text, after every sequence of [add_texts] calls the three sequences again
    have one length; and when the provider fails on the next call, that call
    raises and leaves the object and every file as they were. *)
Theorem add_texts_parity_and_atomic_failure
    (calls : list (list string * option (list meta)))
    (self : VectorStoreManager) (w : world) :
  length_preserving embed_documents_reply →
  parity self →
  let self_n := (run_add_texts split_text embed_documents_reply calls self w).1 in
  let w_n := (run_add_texts split_text embed_documents_reply calls self w).2 in
  parity self_n ∧
  ∀ texts mds,
    chunks_of split_text texts ≠ [] →
    embed_documents_reply (gw_log w_n) (chunks_of split_text texts) = None →
    ∃ w', add_texts split_text embed_documents_reply self_n texts mds w_n
          = (Raise EmbeddingError, self_n, w')
          ∧ files w' = files w_n ∧ dirs w' = dirs w_n.
Proof.
  intros Hlen Hpar self_n w_n. split.
  - by apply run_add_texts_parity.
  - intros texts mds Hne Hfail.
    destruct (add_texts_cases self_n texts mds w_n)
      as [[He _]|[(_ & _ & Heq)|(vs & _ & Hr & _)]].
    + done.
    + eexists. split; [exact Heq|done].
    + congruence.
Qed.

(** *** Where the chunks and their metadata land *)

Lemma add_sub_l (a b : nat) : (a + b - a)%nat = b.
Proof. lia. Qed.

Lemma chunks_of_lookup texts : ∀ i t c chunk,
  texts !! i = Some t → split_text t !! c = Some chunk →
  chunks_of split_text texts
    !! (length (chunks_of split_text (take i texts)) + c)%nat = Some chunk.
Proof.
  unfold chunks_of.
  induction texts as [|t0 texts IH]; intros i t c chunk Hi Hc; [done|].
  destruct i as [|i]; simpl in *.
  - injection Hi as ->. by apply lookup_app_l_Some.
  - rewrite length_app, <- Nat.add_assoc, lookup_app_r by lia.
    rewrite add_sub_l. by eapply IH.
Qed.

Lemma metas_of_lookup mds texts : ∀ idx i t c,
  texts !! i = Some t → (c < length (split_text t))%nat →
  metas_of split_text mds idx texts
    !! (length (chunks_of split_text (take i texts)) + c)%nat
  = Some (default ∅ (supplied_meta mds (idx + i))).
Proof.
  unfold chunks_of.
  induction texts as [|t0 texts IH]; intros idx i t c Hi Hc; [done|].
  destruct i as [|i]; simpl in *.
  - injection Hi as ->. rewrite Nat.add_0_r.
    rewrite lookup_app_l by (by rewrite length_replicate).
    by apply lookup_replicate_2.
  - rewrite length_app, <- Nat.add_assoc, lookup_app_r
      by (rewrite length_replicate; lia).
    rewrite length_replicate, add_sub_l.
    etrans; [exact (IH (S idx) i t c Hi Hc)|]. do 3 f_equal. lia.
Qed.

(** After a successful call every chunk sits at its [chunk_position],
    next to the metadata supplied for its text, or [{}] if none was. *)
Lemma add_texts_lookup self texts mds w self' w' i t c chunk :
  length (documents self) = length (metadatas self) →
  add_texts split_text embed_documents_reply self texts mds w = (Ok tt, self', w') →
  texts !! i = Some t → split_text t !! c = Some chunk →
  documents self' !! chunk_position split_text self texts i c = Some chunk ∧
  metadatas self' !! chunk_position split_text self texts i c
  = Some (default ∅ (supplied_meta mds i)).
Proof.
  intros Hlen Hadd Hi Hc.
  assert (chunks_of split_text texts ≠ []) as Hne.
  { intros He. pose proof (chunks_of_lookup texts i t c chunk Hi Hc) as Hl.
    by rewrite He in Hl. }
  destruct (add_texts_cases self texts mds w)
    as [[He _]|[(_ & _ & Heq)|(vs & _ & Hr & Heq)]]; [done|congruence|].
  rewrite Heq in Hadd. injection Hadd as <- <-. simpl.
  unfold chunk_position. split.
  - rewrite <- Nat.add_assoc, lookup_app_r by lia.
    rewrite add_sub_l. by eapply chunks_of_lookup.
  - rewrite Hlen, <- Nat.add_assoc, lookup_app_r by lia.
    rewrite add_sub_l.
    apply (metas_of_lookup mds texts 0 i t c Hi).
    by eapply lookup_lt_Some.
Qed.

Lemma chunks_before texts : ∀ i j ti,
  (i < j)%nat → texts !! i = Some ti →
  (length (chunks_of split_text (take i texts)) + length (split_text ti)
   ≤ length (chunks_of split_text (take j texts)))%nat.
Proof.
  unfold chunks_of.
  induction texts as [|t0 texts IH]; intros i j ti Hij Hi; [done|].
  destruct j as [|j]; [lia|].
  destruct i as [|i]; simpl in *.
  - injection Hi as ->. rewrite length_app. lia.
  - rewrite !length_app.
    assert (i < j)%nat as Hij' by lia.
    specialize (IH i j ti Hij' Hi). unfold fmap in IH. lia.
Qed.

Lemma chunk_position_mono self texts i j ti c c' :
  (i < j)%nat → texts !! i = Some ti → (c < length (split_text ti))%nat →
  (chunk_position split_text self texts i c
   < chunk_position split_text self texts j c')%nat.
Proof.
  intros Hij Hi Hc. unfold chunk_position.
  pose proof (chunks_before texts i j ti Hij Hi). lia.
Qed.

(** C7. Order preservation and metadata broadcast: after a successful
    [add_texts(texts, metadatas)] with one metadata entry per text, on a
    store whose documents and metadatas have one length, every chunk of
    text [i] is stored at its position together with the metadata supplied
    for text [i], and every chunk of an earlier text stands before every
    chunk of a later text. *)
Theorem add_texts_order_and_broadcast
    (self self' : VectorStoreManager) (w w' : world)
    (texts : list string) (ms : list meta) :
  length (documents self) = length (metadatas self) →
  length ms = length texts →
  add_texts split_text embed_documents_reply self texts (Some ms) w
  = (Ok tt, self', w') →
  (∀ i t c chunk,
     texts !! i = Some t → split_text t !! c = Some chunk →
     documents self' !! chunk_position split_text self texts i c = Some chunk ∧
     metadatas self' !! chunk_position split_text self texts i c = ms !! i ∧
     is_Some (ms !! i)) ∧
  (∀ i j ti tj c c',
     (i < j)%nat → texts !! i = Some ti → texts !! j = Some tj →
     (c < length (split_text ti))%nat → (c' < length (split_text tj))%nat →
     (chunk_position split_text self texts i c
      < chunk_position split_text self texts j c')%nat).
Proof.
  intros Hlen Hms Hadd. split.
  - intros i t c chunk Hi Hc.
    destruct (add_texts_lookup self texts (Some ms) w self' w' i t c chunk
                Hlen Hadd Hi Hc) as [Hd Hm].
    destruct (lookup_lt_is_Some_2 ms i) as [m Hmi].
    { rewrite Hms. by eapply lookup_lt_Some. }
    split; [done|]. split; [|by eexists].
    rewrite Hm. simpl. by rewrite Hmi.
  - intros i j ti tj c c' Hij Hi _ Hc _.
    by eapply chunk_position_mono.
Qed.

(** C10. Missing metadata: with [metadatas=None] or a list shorter than
    [texts] (or any other), [add_texts] succeeds whenever the provider
    answers, and every chunk of a text without a metadata entry is stored
    with the empty mapping. *)
Theorem add_texts_missing_metadata
    (self : VectorStoreManager) (w : world)
    (texts : list string) (mds : option (list meta)) :
  length (documents self) = length (metadatas self) →
  (chunks_of split_text texts ≠ [] →
   embed_documents_reply (gw_log w) (chunks_of split_text texts) ≠ None) →
  ∃ self' w',
    add_texts split_text embed_documents_reply self texts mds w = (Ok tt, self', w') ∧
    ∀ i t c chunk,
      texts !! i = Some t → supplied_meta mds i = None →
      split_text t !! c = Some chunk →
      documents self' !! chunk_position split_text self texts i c = Some chunk ∧
      metadatas self' !! chunk_position split_text self texts i c = Some ∅.
Proof.
  intros Hlen Hreply.
  assert (∃ self' w', add_texts split_text embed_documents_reply self texts mds w
                      = (Ok tt, self', w')) as (self' & w' & Hadd).
  { destruct (add_texts_cases self texts mds w)
      as [[_ Heq]|[(Hne & Hr & _)|(vs & _ & _ & Heq)]];
      [by eauto|by apply Hreply in Hne|by eauto]. }
  exists self', w'. split; [done|].
  intros i t c chunk Hi Hnone Hc.
  destruct (add_texts_lookup self texts mds w self' w' i t c chunk
              Hlen Hadd Hi Hc) as [Hd Hm].
  split; [done|]. by rewrite Hm, Hnone.
Qed.

(** *** Dimensions are not compared *)

(** C5 (as the code has it). [add_texts] never looks at the length of a
    vector: when the provider answers, its vectors are appended and
    persisted as they are, whatever their lengths, and the call succeeds. *)
Theorem add_texts_appends_any_dimension
    (self : VectorStoreManager) (w : world)
    (texts : list string) (mds : option (list meta)) (vs : list vector) :
  chunks_of split_text texts ≠ [] →
  embed_documents_reply (gw_log w) (chunks_of split_text texts) = Some vs →
  ∃ self' w',
    add_texts split_text embed_documents_reply self texts mds w = (Ok tt, self', w') ∧
    doc_embeddings self' = doc_embeddings self ++ vs ∧
    ∃ docs metas,
      files w' !! pkl_path (persist_directory self)
      = Some (Pickled docs (Some (doc_embeddings self ++ vs)) metas).
Proof.
  intros Hne Hr.
  destruct (add_texts_cases self texts mds w)
    as [[He _]|[(_ & Hnone & _)|(vs' & _ & Hr' & Heq)]]; [done|congruence|].
  assert (vs' = vs) as -> by congruence.
  eexists _, _. split; [exact Heq|]. split; [done|].
  eexists _, _. simpl. apply lookup_insert_eq.
Qed.

(** *** Persistence *)

Lemma save_then_init self w :
  (VectorStoreManager_init (persist_directory self) (_save_data self w)).1 = self.
Proof.
  unfold VectorStoreManager_init, _load_data, os_path_exists, _save_data. simpl.
  rewrite lookup_insert_eq.
  rewrite bool_decide_eq_true_2 by (by eexists).
  simpl. by destruct self.
Qed.

(** C6. Round trip: whatever state a sequence of [add_texts] calls has
    reached, saving it and constructing a new manager on the same directory
    gives the same three sequences, in the same order. *)
Theorem persist_reload_roundtrip
    (calls : list (list string * option (list meta)))
    (self0 : VectorStoreManager) (w0 : world) :
  let self := (run_add_texts split_text embed_documents_reply calls self0 w0).1 in
  let w := (run_add_texts split_text embed_documents_reply calls self0 w0).2 in
  let fresh := (VectorStoreManager_init (persist_directory self) (_save_data self w)).1 in
  documents fresh = documents self ∧
  doc_embeddings fresh = doc_embeddings self ∧
  metadatas fresh = metadatas self.
Proof.
  intros self w fresh. unfold fresh. by rewrite save_then_init.
Qed.

(** *** Searching *)

(** C8. Empty store: the search returns [[]] and the world, with the log of
    provider calls, is what it was. *)
Theorem similarity_search_empty_store
    (self : VectorStoreManager) (query : string) (k : Z) (w : world) :
  documents self = [] →
  similarity_search embed_query_reply self query k w = (Ok [], w).
Proof.
  intros Hempty. unfold similarity_search. by rewrite Hempty.
Qed.

(** [similarity_search] never raises. *)
Lemma similarity_search_returns self query k w :
  ∃ results w', similarity_search embed_query_reply self query k w = (Ok results, w').
Proof.
  unfold similarity_search.
  destruct (documents self); [by eauto|].
  destruct (embed_query embed_query_reply query w) as [r w1]. simpl.
  destruct (r ≫= _); eauto.
Qed.

(** C4 (as the code has it). When the provider fails during a search on a
    non-empty store, the exception is caught inside [similarity_search],
    which returns the empty list after the one provider call; no error
    reaches the caller. *)
Theorem similarity_search_swallows_provider_failure
    (self : VectorStoreManager) (query : string) (k : Z) (w : world) :
  documents self ≠ [] →
  embed_query_reply (gw_log w) query = None →
  similarity_search embed_query_reply self query k w
  = (Ok [], log_call (EmbedQuery query) w).
Proof.
  intros Hne Hfail. unfold similarity_search, embed_query.
  destruct (documents self); [done|].
  by rewrite Hfail.
Qed.

End StoreFacts.

(** * Order on binary64 numbers

    [==], [<] and [<=] on floats are fixed by their specification on
    [spec_float] ([FloatAxioms]); the facts the sort needs are read off
    [SFcompare]. *)

Module FloatOrder.

Lemma lex_lt_iff (e1 e2 : Z) (m1 m2 : positive) :
  match (e1 ?= e2)%Z with Lt => Lt | Gt => Gt | Eq => Pos.compare_cont Eq m1 m2 end = Lt
  ↔ (e1 < e2)%Z ∨ (e1 = e2 ∧ (m1 < m2)%positive).
Proof.
  change (Pos.compare_cont Eq m1 m2) with (m1 ?= m2)%positive.
  destruct (Z.compare_spec e1 e2), (Pos.compare_spec m1 m2);
    split; intros; try discriminate; try done; try lia; auto.
Qed.

Lemma lex_gt_iff (e1 e2 : Z) (m1 m2 : positive) :
  match (e1 ?= e2)%Z with Lt => Lt | Gt => Gt | Eq => Pos.compare_cont Eq m1 m2 end = Gt
  ↔ (e2 < e1)%Z ∨ (e1 = e2 ∧ (m2 < m1)%positive).
Proof.
  change (Pos.compare_cont Eq m1 m2) with (m1 ?= m2)%positive.
  destruct (Z.compare_spec e1 e2), (Pos.compare_spec m1 m2);
    split; intros; try discriminate; try done; try lia; auto.
Qed.

Lemma lex_eq_iff (e1 e2 : Z) (m1 m2 : positive) :
  match (e1 ?= e2)%Z with Lt => Lt | Gt => Gt | Eq => Pos.compare_cont Eq m1 m2 end = Eq
  ↔ e1 = e2 ∧ m1 = m2.
Proof.
  change (Pos.compare_cont Eq m1 m2) with (m1 ?= m2)%positive.
  destruct (Z.compare_spec e1 e2), (Pos.compare_spec m1 m2);
    split; intros; try discriminate; try done; try lia; auto.
Qed.

Lemma opp_eq_iff c d : CompOpp c = d ↔ c = CompOpp d.
Proof. destruct c, d; simpl; split; congruence. Qed.

Lemma neg_lex (e1 e2 : Z) (m1 m2 : positive) :
  match (e1 ?= e2)%Z with
  | Eq => CompOpp (Pos.compare_cont Eq m1 m2) | Lt => Gt | Gt => Lt
  end
  = CompOpp match (e1 ?= e2)%Z with
            | Lt => Lt | Gt => Gt | Eq => Pos.compare_cont Eq m1 m2
            end.
Proof. by destruct (e1 ?= e2)%Z. Qed.

(** What [SFcompare] says, as arithmetic on sign, exponent and mantissa. *)
Ltac sf_arith :=
  rewrite ?neg_lex in *;
  repeat match goal with
  | H : Some _ = Some _ |- _ => injection H as H
  | H : CompOpp _ = _ |- _ => apply opp_eq_iff in H; simpl in H
  | H : _ = Lt |- _ => apply lex_lt_iff in H
  | H : _ = Gt |- _ => apply lex_gt_iff in H
  | H : _ = Eq |- _ => apply lex_eq_iff in H
  | |- Some _ = Some _ => f_equal
  | |- CompOpp _ = _ => apply opp_eq_iff; simpl
  | |- _ = Lt => apply lex_lt_iff
  | |- _ = Gt => apply lex_gt_iff
  | |- _ = Eq => apply lex_eq_iff
  end; lia.

Ltac sf_cases :=
  repeat match goal with
  | x : spec_float |- _ => destruct x as [[]|[]| |[] ? ?]
  end; simpl in *; try discriminate; try reflexivity; try sf_arith.

Lemma SFcompare_refl x : x ≠ S754_nan → SFcompare x x = Some Eq.
Proof. intros Hx. destruct x as [[]|[]| |[] m e]; simpl; try done; sf_arith. Qed.

Lemma SFcompare_lt_trans x y z :
  SFcompare x y = Some Lt → SFcompare y z = Some Lt → SFcompare x z = Some Lt.
Proof. intros Hxy Hyz. sf_cases. Qed.

Lemma SFcompare_eq_trans x y z :
  SFcompare x y = Some Eq → SFcompare y z = Some Eq → SFcompare x z = Some Eq.
Proof. intros Hxy Hyz. sf_cases. Qed.

Lemma SFcompare_eq_lt x y z :
  SFcompare x y = Some Eq → SFcompare y z = Some Lt → SFcompare x z = Some Lt.
Proof. intros Hxy Hyz. sf_cases. Qed.

Lemma SFcompare_lt_eq x y z :
  SFcompare x y = Some Lt → SFcompare y z = Some Eq → SFcompare x z = Some Lt.
Proof. intros Hxy Hyz. sf_cases. Qed.

Lemma SFcompare_eq_sym x y :
  SFcompare x y = Some Eq → SFcompare y x = Some Eq.
Proof. intros Hxy. sf_cases. Qed.

Lemma SFcompare_lt_gt x y :
  SFcompare x y = Some Lt → SFcompare y x = Some Gt.
Proof. intros Hxy. sf_cases. Qed.

Lemma SFcompare_gt_lt x y :
  SFcompare x y = Some Gt → SFcompare y x = Some Lt.
Proof. intros Hxy. sf_cases. Qed.

Lemma SFcompare_total x y :
  x ≠ S754_nan → y ≠ S754_nan → ∃ c, SFcompare x y = Some c.
Proof.
  intros Hx Hy. destruct x as [[]|[]| |[] m e], y as [[]|[]| |[] m' e'];
    simpl; try done; eauto.
Qed.

(** *** The primitive comparisons *)

Lemma float_eqb_compare x y :
  PrimFloat.eqb x y = true ↔ SFcompare (Prim2SF x) (Prim2SF y) = Some Eq.
Proof.
  rewrite FloatAxioms.eqb_spec. unfold SFeqb.
  destruct (SFcompare _ _) as [[]|]; split; congruence.
Qed.

Lemma float_ltb_compare x y :
  PrimFloat.ltb x y = true ↔ SFcompare (Prim2SF x) (Prim2SF y) = Some Lt.
Proof.
  rewrite FloatAxioms.ltb_spec. unfold SFltb.
  destruct (SFcompare _ _) as [[]|]; split; congruence.
Qed.

Lemma float_leb_compare x y :
  PrimFloat.leb x y = true
  ↔ SFcompare (Prim2SF x) (Prim2SF y) = Some Lt
    ∨ SFcompare (Prim2SF x) (Prim2SF y) = Some Eq.
Proof.
  rewrite FloatAxioms.leb_spec. unfold SFleb.
  destruct (SFcompare _ _) as [[]|]; split; intros; try tauto; try congruence;
    destruct H; congruence.
Qed.

Lemma not_nan_spec x : PyFloat.is_nan x = false ↔ Prim2SF x ≠ S754_nan.
Proof.
  unfold PyFloat.is_nan. rewrite negb_false_iff, float_eqb_compare. split.
  - intros Hc Hn. rewrite Hn in Hc. discriminate.
  - apply SFcompare_refl.
Qed.

Lemma float_eqb_sym x y : PrimFloat.eqb x y = true → PrimFloat.eqb y x = true.
Proof. rewrite !float_eqb_compare. apply SFcompare_eq_sym. Qed.

Lemma float_eqb_false_sym x y : PrimFloat.eqb x y = false → PrimFloat.eqb y x = false.
Proof.
  intros H. destruct (PrimFloat.eqb y x) eqn:E; [|done].
  apply float_eqb_sym in E. congruence.
Qed.

Lemma float_ltb_not_eqb x y : PrimFloat.ltb x y = true → PrimFloat.eqb x y = false.
Proof.
  rewrite float_ltb_compare. intros H.
  destruct (PrimFloat.eqb x y) eqn:E; [|done].
  apply float_eqb_compare in E. congruence.
Qed.

Lemma float_ltb_asym x y : PrimFloat.ltb x y = true → PrimFloat.ltb y x = false.
Proof.
  rewrite float_ltb_compare. intros H%SFcompare_lt_gt.
  destruct (PrimFloat.ltb y x) eqn:E; [|done].
  apply float_ltb_compare in E. congruence.
Qed.

(** Without NaN the order is total. *)
Lemma float_not_ltb_leb x y :
  PyFloat.is_nan x = false → PyFloat.is_nan y = false →
  PrimFloat.ltb x y = false → PrimFloat.leb y x = true.
Proof.
  rewrite !not_nan_spec. intros Hx Hy Hlt.
  destruct (SFcompare_total _ _ Hx Hy) as [c Hc].
  apply float_leb_compare. destruct c.
  - right. by apply SFcompare_eq_sym.
  - apply float_ltb_compare in Hc. congruence.
  - left. by apply SFcompare_gt_lt.
Qed.

(** *** [<] on [(similarity, index)] tuples *)

Lemma tuple_lt_asym a b : tuple_lt a b = true → tuple_lt b a = false.
Proof.
  unfold tuple_lt. destruct a as [s1 i1], b as [s2 i2]. simpl.
  destruct (PrimFloat.eqb s1 s2) eqn:E.
  - rewrite (float_eqb_sym _ _ E). rewrite !Nat.ltb_lt, Nat.ltb_ge. lia.
  - rewrite (float_eqb_false_sym _ _ E). apply float_ltb_asym.
Qed.

Lemma tuple_lt_trans a b c :
  tuple_lt a b = true → tuple_lt b c = true → tuple_lt a c = true.
Proof.
  unfold tuple_lt. destruct a as [s1 i1], b as [s2 i2], c as [s3 i3]. simpl.
  destruct (PrimFloat.eqb s1 s2) eqn:E12, (PrimFloat.eqb s2 s3) eqn:E23;
    intros H12 H23.
  - apply float_eqb_compare in E12, E23.
    pose proof (SFcompare_eq_trans _ _ _ E12 E23) as E13.
    apply float_eqb_compare in E13. rewrite E13.
    apply Nat.ltb_lt in H12, H23. apply Nat.ltb_lt. lia.
  - apply float_eqb_compare in E12. apply float_ltb_compare in H23.
    pose proof (SFcompare_eq_lt _ _ _ E12 H23) as L13.
    apply float_ltb_compare in L13. by rewrite (float_ltb_not_eqb _ _ L13).
  - apply float_eqb_compare in E23. apply float_ltb_compare in H12.
    pose proof (SFcompare_lt_eq _ _ _ H12 E23) as L13.
    apply float_ltb_compare in L13. by rewrite (float_ltb_not_eqb _ _ L13).
  - apply float_ltb_compare in H12, H23.
    pose proof (SFcompare_lt_trans _ _ _ H12 H23) as L13.
    apply float_ltb_compare in L13. by rewrite (float_ltb_not_eqb _ _ L13).
Qed.

(** What "not smaller" means for two tuples without NaN. *)
Lemma tuple_not_lt a b :
  PyFloat.is_nan a.1 = false → PyFloat.is_nan b.1 = false →
  tuple_lt a b = false →
  PrimFloat.leb b.1 a.1 = true ∧
  (PrimFloat.eqb a.1 b.1 = true → (b.2 ≤ a.2)%nat).
Proof.
  unfold tuple_lt. destruct a as [s1 i1], b as [s2 i2]. simpl.
  intros Ha Hb. destruct (PrimFloat.eqb s1 s2) eqn:E; intros H.
  - split.
    + apply float_leb_compare. right. apply SFcompare_eq_sym. by apply float_eqb_compare.
    + intros _. by apply Nat.ltb_ge in H.
  - split; [by apply float_not_ltb_leb|done].
Qed.

End FloatOrder.

(** * The sort *)

Section SortFacts.

Context {A : Type} (lt : A -> A -> bool).
Hypothesis lt_asym : ∀ a b, lt a b = true → lt b a = false.
Hypothesis lt_trans : ∀ a b c, lt a b = true → lt b c = true → lt a c = true.

(** [a] may stand before [b] in ascending order. *)
Let asc (a b : A) : Prop := lt b a = false.

Lemma insert_sorted_perm x l : insert_sorted lt x l ≡ₚ x :: l.
Proof.
  induction l as [|y l IH]; simpl; [done|].
  destruct (lt x y); [done|]. rewrite IH. apply Permutation_swap.
Qed.

Lemma insert_sorted_asc x l :
  StronglySorted asc l → StronglySorted asc (insert_sorted lt x l).
Proof.
  induction l as [|y l IH]; intros Hs; simpl.
  - repeat constructor.
  - apply StronglySorted_cons in Hs as [Hy Hl].
    destruct (lt x y) eqn:Hxy.
    + apply StronglySorted_cons. split; [|by apply StronglySorted_cons].
      constructor; [by apply lt_asym|].
      eapply Forall_impl; [exact Hy|]. intros z Hz. unfold asc in *.
      destruct (lt z x) eqn:Hzx; [|done].
      by rewrite (lt_trans z x y Hzx Hxy) in Hz.
    + apply StronglySorted_cons. split; [|by apply IH].
      rewrite insert_sorted_perm. by constructor.
Qed.

Lemma fold_insert_perm l : ∀ acc,
  fold_left (λ acc x, insert_sorted lt x acc) l acc ≡ₚ acc ++ l.
Proof.
  induction l as [|x l IH]; intros acc; simpl; [by rewrite app_nil_r|].
  rewrite IH, insert_sorted_perm. simpl. apply Permutation_middle.
Qed.

Lemma fold_insert_asc l : ∀ acc,
  StronglySorted asc acc →
  StronglySorted asc (fold_left (λ acc x, insert_sorted lt x acc) l acc).
Proof.
  induction l as [|x l IH]; intros acc Hs; simpl; [done|].
  by apply IH, insert_sorted_asc.
Qed.

Lemma py_sort_perm l : py_sort lt l ≡ₚ l.
Proof. unfold py_sort. by rewrite fold_insert_perm. Qed.

Lemma py_sort_asc l : StronglySorted asc (py_sort lt l).
Proof. apply fold_insert_asc. constructor. Qed.

Lemma StronglySorted_reverse (R : relation A) l :
  StronglySorted R l → StronglySorted (flip R) (reverse l).
Proof.
  induction 1 as [|x l Hl IH Hx]; [constructor|].
  rewrite reverse_cons.
  apply StronglySorted_app. split_and!; [|done|repeat constructor].
  intros x1 x2 Hx1 Hx2. apply list_elem_of_singleton in Hx2 as ->.
  rewrite elem_of_reverse in Hx1. unfold flip.
  rewrite Forall_forall in Hx. by apply Hx.
Qed.

Lemma py_sort_reverse_perm l : py_sort_reverse lt l ≡ₚ l.
Proof.
  unfold py_sort_reverse.
  by rewrite reverse_Permutation, py_sort_perm, reverse_Permutation.
Qed.

(** After [sort(reverse=True)] no element is smaller than a later one. *)
Lemma py_sort_reverse_desc l :
  StronglySorted (λ a b, lt a b = false) (py_sort_reverse lt l).
Proof. apply (StronglySorted_reverse asc), py_sort_asc. Qed.

Lemma StronglySorted_lookup (R : relation A) l p q x y :
  StronglySorted R l → (p < q)%nat → l !! p = Some x → l !! q = Some y → R x y.
Proof.
  intros Hs. revert p q. induction Hs as [|z l Hl IH Hz]; intros p q Hpq Hp Hq.
  - done.
  - destruct q as [|q]; [lia|]. destruct p as [|p]; simpl in *.
    + injection Hp as ->. eapply Forall_forall in Hz; [exact Hz|].
      by eapply list_elem_of_lookup_2.
    + eapply (IH p q); [lia|done..].
Qed.

Lemma py_slice_to_prefix k (l : list A) : ∃ n, py_slice_to k l = take n l.
Proof. unfold py_slice_to. destruct (0 <=? k)%Z; eauto. Qed.

End SortFacts.

(** * Ranking *)

Section Ranking.

Context (embed_query_reply : list gw_call -> string -> option vector).

Lemma similarities_from_spec qe embs : ∀ i0 sims,
  similarities_from qe i0 embs = Ok sims →
  sims.*2 = seq i0 (length embs) ∧
  ∀ s i, (s, i) ∈ sims →
    (i0 ≤ i)%nat ∧ ∃ e, embs !! (i - i0)%nat = Some e ∧ _cosine_similarity qe e = Ok s.
Proof.
  induction embs as [|e embs IH]; intros i0 sims Hs; simpl in Hs.
  - injection Hs as <-. split; [done|]. intros s i Hin. by apply elem_of_nil in Hin.
  - destruct (_cosine_similarity qe e) as [s0|] eqn:Hcos; [|done]. simpl in Hs.
    destruct (similarities_from qe (S i0) embs) as [rest|] eqn:Hrest; [|done].
    simpl in Hs. injection Hs as <-.
    destruct (IH (S i0) rest Hrest) as [Hidx Hel]. split.
    + rewrite fmap_cons, Hidx. done.
    + intros s i Hin. apply elem_of_cons in Hin as [Heq|Hin].
      * injection Heq as -> ->. split; [lia|]. exists e.
        by rewrite Nat.sub_diag.
      * destruct (Hel s i Hin) as [Hle (e' & He' & Hc')]. split; [lia|].
        exists e'. split; [|done].
        replace (i - i0)%nat with (S (i - S i0)) by lia. done.
Qed.

Lemma similarities_from_ok qe embs : ∀ i0,
  (∀ e, e ∈ embs → ∃ s, _cosine_similarity qe e = Ok s) →
  ∃ sims, similarities_from qe i0 embs = Ok sims.
Proof.
  induction embs as [|e embs IH]; intros i0 Hall; simpl; [by eauto|].
  destruct (Hall e) as [s Hs]; [by left|]. rewrite Hs. simpl.
  destruct (IH (S i0)) as [rest Hrest].
  { intros e' He'. apply Hall. by right. }
  rewrite Hrest. simpl. eauto.
Qed.

Lemma result_at_ok self i :
  (i < length (documents self))%nat →
  ∃ r, result_at self i = Ok r ∧ is_result_for self i r.
Proof.
  intros Hi. unfold result_at, py_index, is_result_for.
  destruct (lookup_lt_is_Some_2 _ _ Hi) as [d Hd]. rewrite Hd. simpl.
  destruct (Nat.ltb_spec i (length (metadatas self))) as [Hm|Hm].
  - destruct (metadatas self !! i) as [m|] eqn:Hmi.
    + simpl. eexists. split; [done|]. done.
    + apply lookup_ge_None_1 in Hmi. lia.
  - simpl. eexists. split; [done|]. simpl.
    by rewrite (lookup_ge_None_2 _ _ Hm).
Qed.

Lemma results_for_ok self idxs :
  (∀ i, i ∈ idxs → (i < length (documents self))%nat) →
  ∃ rs, results_for self idxs = Ok rs ∧ Forall2 (is_result_for self) idxs rs.
Proof.
  induction idxs as [|i idxs IH]; intros Hall; simpl.
  - exists []. by split.
  - destruct (result_at_ok self i) as (r & Hr & Hir); [apply Hall; by left|].
    destruct IH as (rs & Hrs & Hf); [intros j Hj; apply Hall; by right|].
    rewrite Hr. simpl. rewrite Hrs. simpl.
    exists (r :: rs). split; [done|by constructor].
Qed.

(** Every result is built from a stored document. *)
Lemma results_for_stored self idxs rs :
  results_for self idxs = Ok rs →
  ∀ r, r ∈ rs → page_content r ∈ documents self.
Proof.
  revert rs. induction idxs as [|i idxs IH]; intros rs Hrs r Hr; simpl in Hrs.
  - injection Hrs as <-. by apply elem_of_nil in Hr.
  - destruct (result_at self i) as [r0|] eqn:Hat; [|done]. simpl in Hrs.
    destruct (results_for self idxs) as [rest|] eqn:Hrest; [|done].
    simpl in Hrs. injection Hrs as <-.
    apply elem_of_cons in Hr as [->|Hr]; [|by eapply IH].
    unfold result_at, py_index in Hat.
    destruct (documents self !! i) as [d|] eqn:Hd; [|done]. simpl in Hat.
    destruct (if (i <? length (metadatas self))%nat then _ else _); [|done].
    simpl in Hat. injection Hat as <-. simpl.
    by eapply list_elem_of_lookup_2.
Qed.

Lemma similarity_search_stored self query k w rs w' :
  similarity_search embed_query_reply self query k w = (Ok rs, w') →
  ∀ r, r ∈ rs → page_content r ∈ documents self.
Proof.
  unfold similarity_search. intros Hs r Hr.
  destruct (documents self) as [|d ds] eqn:Hdocs.
  { injection Hs as <- _. by apply elem_of_nil in Hr. }
  destruct (embed_query embed_query_reply query w) as [[qe|e] w1]; simpl in Hs.
  - unfold search_body in Hs.
    destruct (top_k_indices self qe k) as [idxs|]; simpl in Hs.
    + destruct (results_for self idxs) as [rs'|] eqn:Hrs.
      * injection Hs as <- _. rewrite <- Hdocs. by eapply results_for_stored.
      * injection Hs as <- _. by apply elem_of_nil in Hr.
    + injection Hs as <- _. by apply elem_of_nil in Hr.
  - injection Hs as <- _. by apply elem_of_nil in Hr.
Qed.

(** The ranked indices come with their similarities, none repeated, in
    descending tuple order. *)
Lemma top_k_indices_spec self qe k :
  (∀ e, e ∈ doc_embeddings self → ∃ s, _cosine_similarity qe e = Ok s) →
  ∃ top : list (float * nat),
    top_k_indices self qe k = Ok top.*2 ∧
    NoDup top.*2 ∧
    StronglySorted (λ a b, tuple_lt a b = false) top ∧
    ∀ s i, (s, i) ∈ top →
      (i < length (doc_embeddings self))%nat ∧ similarity_of self qe i = Some s.
Proof.
  intros Hall.
  destruct (similarities_from_ok qe (doc_embeddings self) 0%nat Hall) as [sims Hsims].
  destruct (similarities_from_spec qe _ _ _ Hsims) as [Hidx Hel].
  destruct (py_slice_to_prefix k (py_sort_reverse tuple_lt sims)) as [n Hn].
  pose proof (py_sort_reverse_perm tuple_lt sims) as Hperm.
  exists (take n (py_sort_reverse tuple_lt sims)). split_and!.
  - unfold top_k_indices. rewrite Hsims. simpl. by rewrite Hn.
  - rewrite fmap_take.
    apply (sublist_NoDup _ (py_sort_reverse tuple_lt sims).*2);
      [|apply sublist_take].
    rewrite Hperm, Hidx. apply NoDup_seq.
  - eapply StronglySorted_app_1_l. rewrite take_drop.
    apply py_sort_reverse_desc.
    + apply FloatOrder.tuple_lt_asym.
    + apply FloatOrder.tuple_lt_trans.
  - intros s i Hin.
    assert ((s, i) ∈ sims) as Hin'.
    { rewrite <- Hperm. eapply elem_of_sublist; [exact Hin|apply sublist_take]. }
    destruct (Hel s i Hin') as [_ (e & He & Hc)].
    rewrite Nat.sub_0_r in He. split; [by eapply lookup_lt_Some|].
    unfold similarity_of. rewrite He. simpl. by rewrite Hc.
Qed.

(** C3 (as the code has it). Ranking: on a store with as many documents as
    embeddings, when the query is embedded and every similarity is a number
    (no NaN), [similarity_search] returns the documents of the ranked
    indices; similarities never increase along the ranking, and of two
    documents with equal similarity the one inserted later is ranked
    first. *)
Theorem similarity_search_ranking
    (self : VectorStoreManager) (query : string) (k : Z) (w : world)
    (query_embedding : vector) :
  length (documents self) = length (doc_embeddings self) →
  embed_query_reply (gw_log w) query = Some query_embedding →
  (∀ e, e ∈ doc_embeddings self →
     ∃ s, _cosine_similarity query_embedding e = Ok s ∧ PyFloat.is_nan s = false) →
  ∃ idxs results,
    top_k_indices self query_embedding k = Ok idxs ∧
    (similarity_search embed_query_reply self query k w).1 = Ok results ∧
    Forall2 (is_result_for self) idxs results ∧
    ∀ p q i j,
      (p < q)%nat → idxs !! p = Some i → idxs !! q = Some j →
      ∃ si sj,
        similarity_of self query_embedding i = Some si ∧
        similarity_of self query_embedding j = Some sj ∧
        PrimFloat.leb sj si = true ∧
        (PrimFloat.eqb si sj = true → (j < i)%nat).
Proof.
  intros Hlen Hreply Hall.
  destruct (top_k_indices_spec self query_embedding k)
    as (top & Htop & Hnodup & Hsorted & Hel).
  { intros e He. destruct (Hall e He) as (s & Hs & _). eauto. }
  destruct (results_for_ok self top.*2) as (rs & Hrs & Hf).
  { intros i Hi. apply list_elem_of_fmap in Hi as ([s i'] & -> & Hin).
    rewrite Hlen. by apply (Hel s i'). }
  exists top.*2, rs. split_and!; [done| |done|].
  - unfold similarity_search, embed_query. rewrite Hreply.
    destruct (documents self) as [|d ds] eqn:Hdocs.
    + simpl. destruct top as [|[s i] top'].
      * by inversion Hf.
      * destruct (Hel s i) as [Hi _]; [by left|].
        rewrite <- Hlen in Hi. simpl in Hi. lia.
    + simpl. unfold search_body. rewrite Htop. simpl. by rewrite Hrs.
  - intros p q i j Hpq Hp Hq.
    apply list_lookup_fmap_Some in Hp as ([si i'] & -> & Hp).
    apply list_lookup_fmap_Some in Hq as ([sj j'] & -> & Hq).
    simpl.
    destruct (Hel si i') as [Hi Hsi]; [by eapply list_elem_of_lookup_2|].
    destruct (Hel sj j') as [Hj Hsj]; [by eapply list_elem_of_lookup_2|].
    exists si, sj. split_and!; [done|done|..].
    all: pose proof (StronglySorted_lookup _ _ _ _ _ _ Hsorted Hpq Hp Hq) as Hnlt;
      simpl in Hnlt.
    all: assert (PyFloat.is_nan si = false ∧ PyFloat.is_nan sj = false) as [Hni Hnj].
    1,3: unfold similarity_of in Hsi, Hsj;
      destruct (doc_embeddings self !! i') as [ei|] eqn:Hei; [|done];
      destruct (doc_embeddings self !! j') as [ej|] eqn:Hej; [|done];
      simpl in Hsi, Hsj;
      destruct (Hall ei) as (si' & Hci & Hnani); [by eapply list_elem_of_lookup_2|];
      destruct (Hall ej) as (sj' & Hcj & Hnanj); [by eapply list_elem_of_lookup_2|];
      rewrite Hci in Hsi; rewrite Hcj in Hsj;
      injection Hsi as <-; injection Hsj as <-; done.
    all: destruct (FloatOrder.tuple_not_lt (si, i') (sj, j') Hni Hnj Hnlt)
      as [Hleb Hties]; simpl in *.
    + done.
    + intros Heq. specialize (Hties Heq).
      assert (i' ≠ j'); [|lia]. intros ->.
      assert (p = q); [|lia].
      eapply NoDup_lookup; [exact Hnodup| |];
        rewrite list_lookup_fmap; [by rewrite Hp|by rewrite Hq].
Qed.

End Ranking.

(** * The product of two square roots

    [_cosine_similarity] divides by [magnitude_a * magnitude_b] after it
    checked that neither factor is zero.  A square root that is not zero is
    at least [2^-537], so the product cannot underflow to zero. *)

Module SqrtProduct.

Local Open Scope Z_scope.

















End SqrtProduct.

(** * Cosine similarity *)


(** * Paths *)

Module Paths.

Lemma app_cons_string c (s t : string) : String c s +:+ t = String c (s +:+ t).
Proof. reflexivity. Qed.

Lemma app_nil_l_string (t : string) : "" +:+ t = t.
Proof. reflexivity. Qed.

Ltac simpl_app := rewrite ?app_cons_string, ?app_nil_l_string in *; simpl in *.

Lemma app_nil_r_string (s : string) : s +:+ "" = s.
Proof. induction s; simpl_app; congruence. Qed.

Lemma app_assoc_string (s1 s2 s3 : string) :
  (s1 +:+ s2) +:+ s3 = s1 +:+ (s2 +:+ s3).
Proof. induction s1; simpl_app; congruence. Qed.

Lemma length_app_string (s1 s2 : string) :
  String.length (s1 +:+ s2) = (String.length s1 + String.length s2)%nat.
Proof. induction s1; simpl_app; congruence. Qed.

(** Two strings of one length in front of whatever follows. *)
Lemma app_inv_length (a b c d : string) :
  String.length a = String.length b → a +:+ c = b +:+ d → a = b ∧ c = d.
Proof.
  revert b. induction a as [|x a IH]; intros [|y b] Hlen Heq; simpl_app;
    try done.
  injection Heq as -> Heq. destruct (IH b) as [-> ->]; [lia|done|done].
Qed.

Lemma app_inv_tail_string (a b c : string) : a +:+ c = b +:+ c → a = b.
Proof.
  intros Heq. apply (app_inv_length a b c c); [|exact Heq].
  apply (f_equal String.length) in Heq. rewrite !length_app_string in Heq. lia.
Qed.

Lemma app_inv_head_string (a b c : string) : a +:+ b = a +:+ c → b = c.
Proof. intros Heq. by apply (app_inv_length a a b c). Qed.

Lemma has_sep_app (a b : string) : has_sep (a +:+ b) = has_sep a || has_sep b.
Proof.
  induction a as [|x a IH]; simpl_app; [done|]. by rewrite IH, orb_assoc.
Qed.

Lemma last_char_app (a b : string) :
  b ≠ "" → last_char (a +:+ b) = last_char b.
Proof.
  intros Hb. induction a as [|x a IH]; [done|]. rewrite app_cons_string.
  simpl. destruct (a +:+ b) eqn:Hab; [|done].
  by destruct a, b.
Qed.

Lemma last_char_has_sep (s : string) :
  last_char s = Some sep → has_sep s = true.
Proof.
  induction s as [|x s IH]; [done|]. simpl. destruct s as [|y s].
  - intros [= ->]. done.
  - intros H. rewrite (IH H). by rewrite orb_true_r.
Qed.

Lemma last_char_None (s : string) : last_char s = None → s = "".
Proof.
  induction s as [|x s IH]; [done|]. simpl. destruct s as [|y s]; [done|].
  intros H. by specialize (IH H).
Qed.

Lemma dir_prefix_dir_like d : dir_like (dir_prefix d).
Proof.
  unfold dir_like, dir_prefix. destruct (last_char d) as [c|] eqn:Hl.
  - case_bool_decide as Hc; [right; congruence|].
    right. rewrite last_char_app; [reflexivity|discriminate].
  - left. by apply last_char_None.
Qed.

Lemma starts_with_sep_has_sep n : has_sep n = false → starts_with_sep n = false.
Proof. destruct n as [|c n]; simpl; [done|]. by intros [? _]%orb_false_elim. Qed.

(** [os.path.join] of a directory and a name without [/]. *)
Lemma os_path_join_name d n :
  has_sep n = false → os_path_join d n = dir_prefix d +:+ n.
Proof.
  intros Hn. unfold os_path_join, dir_prefix.
  rewrite (starts_with_sep_has_sep n Hn).
  destruct (last_char d) as [c|] eqn:Hl.
  - case_bool_decide; [done|]. by rewrite app_assoc_string.
  - by rewrite (last_char_None d Hl).
Qed.

Lemma dir_like_tail x p : dir_like (String x p) → dir_like p.
Proof.
  unfold dir_like. intros [|H]; [done|]. destruct p as [|y p]; [by left|by right].
Qed.

(** A path splits in one way only into a directory prefix and a name. *)
Lemma split_at_last_sep p1 : ∀ p2 n1 n2,
  dir_like p1 → dir_like p2 → has_sep n1 = false → has_sep n2 = false →
  p1 +:+ n1 = p2 +:+ n2 → p1 = p2 ∧ n1 = n2.
Proof.
  assert (∀ p n1 n2, dir_like p → p ≠ "" → has_sep n1 = false →
          n1 = p +:+ n2 → False) as Hno.
  { intros p n1 n2 [->|Hl] Hp Hn1 ->; [done|].
    apply last_char_has_sep in Hl. rewrite has_sep_app, Hl in Hn1. done. }
  induction p1 as [|x p1 IH]; intros [|y p2] n1 n2 Hd1 Hd2 Hn1 Hn2 Heq;
    rewrite ?app_cons_string, ?app_nil_l_string in Heq.
  - done.
  - exfalso. by eapply (Hno (String y p2) n1 n2).
  - exfalso. by eapply (Hno (String x p1) n2 n1).
  - injection Heq as -> Heq.
    destruct (IH p2 n1 n2) as [-> ->]; eauto using dir_like_tail.
Qed.

Lemma os_path_join_inj d1 d2 n1 n2 :
  has_sep n1 = false → has_sep n2 = false →
  os_path_join d1 n1 = os_path_join d2 n2 →
  dir_prefix d1 = dir_prefix d2 ∧ n1 = n2.
Proof.
  intros Hn1 Hn2. rewrite !os_path_join_name by done.
  apply split_at_last_sep; auto using dir_prefix_dir_like.
Qed.

(** The directory of an agent, and its prefix. *)
Lemma agent_vector_dir_prefix vd a :
  has_sep a = false →
  dir_prefix (agent_vector_dir vd a) = agent_vector_dir vd a +:+ "/".
Proof.
  intros Ha. unfold agent_vector_dir.
  rewrite os_path_join_name by (by rewrite has_sep_app, Ha).
  set (P := dir_prefix vd). unfold dir_prefix.
  rewrite last_char_app by (rewrite app_cons_string; discriminate).
  destruct (last_char ("agent_" +:+ a)) as [c|] eqn:Hl.
  - case_bool_decide as Hc; [|done]. subst c.
    apply last_char_has_sep in Hl. rewrite has_sep_app, Ha in Hl. done.
  - apply last_char_None in Hl. rewrite app_cons_string in Hl. discriminate.
Qed.

Lemma agent_vector_dir_inj vd a b :
  has_sep a = false → has_sep b = false →
  agent_vector_dir vd a = agent_vector_dir vd b → a = b.
Proof.
  intros Ha Hb Heq. unfold agent_vector_dir in Heq.
  apply os_path_join_inj in Heq as [_ Heq];
    [|by rewrite has_sep_app, ?Ha, ?Hb..].
  by apply app_inv_head_string in Heq.
Qed.

(** Different agents keep their snapshots in different files. *)
Lemma pkl_path_agents_ne vd a b :
  has_sep a = false → has_sep b = false → a ≠ b →
  pkl_path (agent_vector_dir vd a) ≠ pkl_path (agent_vector_dir vd b).
Proof.
  intros Ha Hb Hab Heq. unfold pkl_path in Heq.
  apply os_path_join_inj in Heq as [Heq _]; [|done..].
  rewrite !agent_vector_dir_prefix in Heq by done.
  apply app_inv_tail_string in Heq.
  by apply agent_vector_dir_inj in Heq.
Qed.

(** No agent keeps its snapshot in the file of the global store. *)
Lemma pkl_path_global_ne vd a :
  has_sep a = false →
  pkl_path (agent_vector_dir vd a) ≠ pkl_path vd.
Proof.
  intros Ha Heq. unfold pkl_path in Heq.
  apply os_path_join_inj in Heq as [Heq _]; [|done..].
  rewrite agent_vector_dir_prefix in Heq by done.
  unfold agent_vector_dir in Heq.
  rewrite os_path_join_name in Heq by (by rewrite has_sep_app, Ha).
  rewrite <- (app_nil_r_string (dir_prefix vd)) in Heq at 2.
  rewrite app_assoc_string in Heq.
  apply app_inv_head_string in Heq. done.
Qed.

(** A record of the registry is never a snapshot. *)
Lemma agent_file_pkl_ne d bd a :
  has_sep a = false → agent_file bd a ≠ pkl_path d.
Proof.
  intros Ha Heq. unfold agent_file, pkl_path in Heq.
  apply os_path_join_inj in Heq as [_ Heq];
    [|by rewrite ?has_sep_app, ?Ha..].
  apply (f_equal last_char) in Heq. by rewrite last_char_app in Heq.
Qed.

Lemma agent_file_ne bd1 bd2 a b :
  has_sep a = false → has_sep b = false → a ≠ b →
  agent_file bd1 a ≠ agent_file bd2 b.
Proof.
  intros Ha Hb Hab Heq. unfold agent_file in Heq.
  apply os_path_join_inj in Heq as [_ Heq];
    [|by rewrite has_sep_app, ?Ha, ?Hb..].
  by apply app_inv_tail_string in Heq.
Qed.

End Paths.

(** * The agent registry on disk *)

Lemma strip_prefix_Some pre : ∀ s r,
  strip_prefix pre s = Some r → s = pre +:+ r.
Proof.
  induction pre as [|c pre IH]; intros s r H; simpl in H.
  - by injection H as ->.
  - destruct s as [|d s]; [done|]. case_bool_decide; [|done]. subst d.
    rewrite Paths.app_cons_string. f_equal. by apply IH.
Qed.

Lemma strip_suffix_unfold suf s :
  strip_suffix suf s
  = if String.eqb s suf then Some ""
    else match s with
         | "" => None
         | String c s' => String c <$> strip_suffix suf s'
         end.
Proof. by destruct s. Qed.

Lemma strip_suffix_Some suf s : ∀ r,
  strip_suffix suf s = Some r → s = r +:+ suf.
Proof.
  induction s as [|c s IH]; intros r H; rewrite strip_suffix_unfold in H.
  - destruct (String.eqb_spec "" suf) as [<-|]; [|done]. by injection H as <-.
  - destruct (String.eqb_spec (String c s) suf) as [<-|].
    + by injection H as <-.
    + destruct (strip_suffix suf s) as [r'|] eqn:Hr; [|done].
      injection H as <-. rewrite Paths.app_cons_string. f_equal. by apply IH.
Qed.

(** Every record [_load_agents] returns is the content of the agent's own
    JSON file. *)
Lemma load_agents_sound d w agent_id data :
  _load_agents d w !! agent_id = Some data →
  files w !! agent_file d agent_id = Some (Json data).
Proof.
  unfold _load_agents. destruct (os_path_exists d w);
    [|by rewrite lookup_empty].
  intros H%elem_of_list_to_map_2.
  apply list_elem_of_omap in H as ([p f] & Hin & Hentry).
  apply elem_of_map_to_list in Hin.
  unfold load_agent_entry, entry_name in Hentry. simpl in Hentry.
  destruct (strip_prefix (dir_prefix d) p) as [name|] eqn:Hname; [|done].
  simpl in Hentry.
  destruct (has_sep name) eqn:Hsep; [done|]. simpl in Hentry.
  case_bool_decide; [done|]. simpl in Hentry.
  destruct (strip_suffix ".json" name) as [id'|] eqn:Hid; [|done].
  simpl in Hentry. destruct f as [| data' |]; try done.
  injection Hentry as -> ->.
  apply strip_prefix_Some in Hname. apply strip_suffix_Some in Hid. subst.
  unfold agent_file. by rewrite Paths.os_path_join_name.
Qed.

(** * Namespaces *)

Section AgentFacts.

Context (split_text : string -> list string).
Context (embed_documents_reply : list gw_call -> list string -> option (list vector)).
Context (embed_query_reply : list gw_call -> string -> option vector).

(** A new manager holds the documents of the snapshot in its directory and
    leaves every file alone. *)
Lemma init_files d w : files (VectorStoreManager_init d w).2 = files w.
Proof. done. Qed.

Lemma init_persist_directory d w :
  persist_directory (VectorStoreManager_init d w).1 = d.
Proof.
  unfold VectorStoreManager_init, _load_data. simpl.
  destruct (os_path_exists _ _); [|done].
  by destruct (files w !! pkl_path d) as [[]|].
Qed.

Lemma init_documents d w :
  documents (VectorStoreManager_init d w).1 = stored_documents w (pkl_path d).
Proof.
  unfold VectorStoreManager_init, _load_data, stored_documents.
  cbn [fst persist_directory].
  destruct (os_path_exists _ _) eqn:He.
  - change (files (os_makedirs d w)) with (files w).
    by destruct (files w !! pkl_path d) as [[]|].
  - unfold os_path_exists in He. apply orb_false_elim in He as [He _].
    apply bool_decide_eq_false in He.
    change (files (os_makedirs d w)) with (files w) in He.
    destruct (files w !! pkl_path d) as [f|]; [|done].
    exfalso. apply He. by eexists.
Qed.

(** [add_texts] writes no file but the snapshot of its own directory. *)
Lemma add_texts_frame self texts mds w p :
  p ≠ pkl_path (persist_directory self) →
  files (add_texts split_text embed_documents_reply self texts mds w).2 !! p
  = files w !! p.
Proof.
  intros Hp.
  destruct (add_texts_cases split_text embed_documents_reply self texts mds w)
    as [[_ ->]|[(_ & _ & ->)|(vs & _ & _ & ->)]]; simpl; try done.
  by rewrite lookup_insert_ne.
Qed.

(** [train_agent_from_text] writes no file but the agent's snapshot and the
    agent's record. *)
Lemma train_agent_frame tools a text source now w p :
  p ≠ pkl_path (agent_vector_dir (vector_dir tools) a) →
  p ≠ agent_file (base_dir tools) a →
  files (train_agent_from_text split_text embed_documents_reply
           tools a text source now w).2 !! p
  = files w !! p.
Proof.
  intros Hpkl Hjson. unfold train_agent_from_text.
  destruct (agents tools !! a) as [data|]; [|done].
  set (dir := agent_vector_dir (vector_dir tools) a) in *.
  set (w1 := os_makedirs dir w).
  pose proof (init_persist_directory dir w1) as Hdir.
  destruct (VectorStoreManager_init dir w1) as [mgr w2] eqn:Hinit.
  assert (files w2 = files w) as Hw2.
  { change w2 with (mgr, w2).2. by rewrite <- Hinit. }
  simpl in Hdir.
  pose proof (add_texts_frame mgr [text] (Some [{["source" := source]}]) w2 p) as Hadd.
  rewrite Hdir in Hadd. specialize (Hadd Hpkl).
  destruct (add_texts _ _ mgr _ _ w2) as [[[u|e] self'] w3]; simpl in *.
  - destruct (_ !! "name"); simpl; rewrite lookup_insert_ne by done;
      by rewrite Hadd, Hw2.
  - by rewrite Hadd, Hw2.
Qed.

Lemma stored_documents_files w1 w2 p :
  files w1 !! p = files w2 !! p → stored_documents w1 p = stored_documents w2 p.
Proof. unfold stored_documents. by intros ->. Qed.

(** With an agent, [answer_question] searches the snapshot in the directory
    that the agent's record names, and nothing else. *)
Lemma answer_question_agent_docs vm question b w docs w' :
  b ≠ "" →
  answer_question_docs embed_query_reply vm question (Some b) w = (Ok (Docs docs), w') →
  ∃ p, recorded_path w b = Some p ∧
       ∀ r, r ∈ docs → page_content r ∈ stored_documents w (pkl_path p).
Proof.
  intros Hb. unfold answer_question_docs, AgentTools_init.
  destruct b as [|c b]; [done|].
  set (id := String c b).
  set (w1 := os_makedirs "vector_store" (os_makedirs "agents" w)).
  destruct (VectorStoreManager_init "vector_store" w1) as [gvm w2] eqn:Hinit.
  assert (files w2 = files w) as Hw2.
  { change w2 with (gvm, w2).2. by rewrite <- Hinit. }
  cbn [agents].
  destruct (_load_agents "agents" w2 !! id) as [agent|] eqn:Hagent; [|done].
  apply load_agents_sound in Hagent. rewrite Hw2 in Hagent.
  destruct (agent !! "vector_store_path") as [[|c' p']|] eqn:Hpath; try done.
  set (p := String c' p') in *.
  destruct (os_path_exists p w2); [|done].
  destruct (VectorStoreManager_init p w2) as [mgr w3] eqn:Hinit'.
  pose proof (init_documents p w2) as Hdocs. rewrite Hinit' in Hdocs.
  simpl in Hdocs.
  destruct (similarity_search embed_query_reply mgr question 5 w3)
    as [[docs'|e] w4] eqn:Hsearch; [|done].
  intros [= <- _]. exists p. split.
  - unfold recorded_path. by rewrite Hagent.
  - intros r Hr.
    pose proof (similarity_search_stored _ _ _ _ _ _ _ Hsearch r Hr) as Hin.
    rewrite Hdocs in Hin.
    rewrite (stored_documents_files w w2); [done|by rewrite Hw2].
Qed.

(** Without an agent it searches the bot's own manager. *)
Lemma answer_question_global_docs vm question w docs w' :
  answer_question_docs embed_query_reply vm question None w = (Ok (Docs docs), w') →
  ∀ r, r ∈ docs → page_content r ∈ documents vm.
Proof.
  unfold answer_question_docs.
  destruct (similarity_search embed_query_reply vm question 5 w)
    as [[docs'|e] w1] eqn:Hsearch; [|done].
  intros [= <- _] r Hr. by eapply similarity_search_stored.
Qed.

(** C2. Namespace isolation: let [a] and [b] be different agent ids (file
    names, so without [/]; [b] not empty), and let the record of [b] name
    no other directory than [b]'s own.  Then training [a] with
    [train_agent_from_text] writes no file except [a]'s snapshot and [a]'s
    record; the snapshots of [b] and of the global store keep their
    documents; every document a search for [b] returns afterwards was in
    [b]'s snapshot before; and a search without agent returns documents of
    the bot's own manager only. *)
Theorem namespace_isolation
    (tools : AgentTools) (a b text source now question : string)
    (bot_vm : VectorStoreManager) (w : world) :
  a ≠ b → has_sep a = false → has_sep b = false → b ≠ "" →
  (∀ p, recorded_path w b = Some p → p = agent_vector_dir (vector_dir tools) b) →
  let w' := (train_agent_from_text split_text embed_documents_reply
               tools a text source now w).2 in
  let own_b := pkl_path (agent_vector_dir (vector_dir tools) b) in
  (∀ p, p ≠ pkl_path (agent_vector_dir (vector_dir tools) a) →
        p ≠ agent_file (base_dir tools) a →
        files w' !! p = files w !! p) ∧
  stored_documents w' own_b = stored_documents w own_b ∧
  stored_documents w' (pkl_path (vector_dir tools))
  = stored_documents w (pkl_path (vector_dir tools)) ∧
  (∀ docs w'',
     answer_question_docs embed_query_reply bot_vm question (Some b) w'
     = (Ok (Docs docs), w'') →
     ∀ r, r ∈ docs → page_content r ∈ stored_documents w own_b) ∧
  (∀ docs w'',
     answer_question_docs embed_query_reply bot_vm question None w'
     = (Ok (Docs docs), w'') →
     ∀ r, r ∈ docs → page_content r ∈ documents bot_vm).
Proof.
  intros Hab Ha Hb Hbne Hrec w' own_b.
  assert (∀ p, p ≠ pkl_path (agent_vector_dir (vector_dir tools) a) →
               p ≠ agent_file (base_dir tools) a →
               files w' !! p = files w !! p) as Hframe.
  { intros p H1 H2. by apply train_agent_frame. }
  assert (files w' !! own_b = files w !! own_b) as Hown.
  { apply Hframe.
    - apply not_eq_sym, Paths.pkl_path_agents_ne; done.
    - intros Heq. symmetry in Heq. by apply Paths.agent_file_pkl_ne in Heq. }
  split_and!.
  - exact Hframe.
  - by apply stored_documents_files.
  - apply stored_documents_files, Hframe.
    + intros Heq. symmetry in Heq. by apply Paths.pkl_path_global_ne in Heq.
    + intros Heq. symmetry in Heq. by apply Paths.agent_file_pkl_ne in Heq.
  - intros docs w'' Hq r Hr.
    destruct (answer_question_agent_docs _ _ _ _ _ _ Hbne Hq) as (p & Hp & Hdocs).
    assert (recorded_path w' b = recorded_path w b) as Hsame.
    { unfold recorded_path. rewrite Hframe; [done| |].
      - by apply Paths.agent_file_pkl_ne.
      - apply not_eq_sym, Paths.agent_file_ne; done. }
    rewrite Hsame in Hp. apply Hrec in Hp. subst p.
    rewrite <- (stored_documents_files w' w own_b Hown). by apply Hdocs.
  - intros docs w'' Hq. by eapply answer_question_global_docs.
Qed.

End AgentFacts.

(** * The model on concrete inputs *)

Lemma ex_embed_once_length_preserving : length_preserving ex_embed_once.
Proof.
  intros log chunks vs. unfold ex_embed_once.
  destruct log; [|done]. intros [= <-]. by rewrite length_fmap.
Qed.

(** C1 at a provider that answers once and then fails: after the first
    call the store has one document, one embedding and one metadata; the
    second call raises and changes nothing. *)
Lemma add_texts_parity_and_atomic_failure_witness :
  length_preserving ex_embed_once ∧ parity ex_empty_store ∧
  let self_n := (run_add_texts ex_split ex_embed_once [(["a"], None)]
                   ex_empty_store ex_world).1 in
  let w_n := (run_add_texts ex_split ex_embed_once [(["a"], None)]
                ex_empty_store ex_world).2 in
  parity self_n ∧
  ∃ w', add_texts ex_split ex_embed_once self_n ["b"] None w_n
        = (Raise EmbeddingError, self_n, w')
        ∧ files w' = files w_n ∧ dirs w' = dirs w_n.
Proof.
  split; [exact ex_embed_once_length_preserving|].
  split; [split; reflexivity|].
  intros self_n w_n.
  destruct (add_texts_parity_and_atomic_failure ex_split ex_embed_once
              [(["a"], None)] ex_empty_store ex_world
              ex_embed_once_length_preserving (conj eq_refl eq_refl))
    as [Hpar Hfail].
  split; [exact Hpar|].
  apply (Hfail ["b"] None); [discriminate|reflexivity].
Defined.

(** C7 at two texts with their metadata. *)
Lemma add_texts_order_and_broadcast_witness :
  let ms : list meta := [{[ "source" := "one" ]}; {[ "source" := "two" ]}] in
  let out := add_texts ex_split ex_embed_documents ex_empty_store
               ["a"; "b"] (Some ms) ex_world in
  documents out.1.2 !! chunk_position ex_split ex_empty_store ["a"; "b"] 1 0
  = Some "b" ∧
  metadatas out.1.2 !! chunk_position ex_split ex_empty_store ["a"; "b"] 1 0
  = ms !! 1%nat ∧
  (chunk_position ex_split ex_empty_store ["a"; "b"] 0 0
   < chunk_position ex_split ex_empty_store ["a"; "b"] 1 0)%nat.
Proof.
  intros ms out.
  destruct (add_texts_order_and_broadcast ex_split ex_embed_documents
              ex_empty_store out.1.2 ex_world out.2 ["a"; "b"] ms
              eq_refl eq_refl eq_refl) as [Hat Hord].
  destruct (Hat 1%nat "b" 0%nat "b" eq_refl eq_refl) as (Hd & Hm & _).
  split; [exact Hd|]. split; [exact Hm|].
  apply (Hord 0%nat 1%nat "a" "b" 0%nat 0%nat); [lia|reflexivity..|simpl; lia|simpl; lia].
Defined.

(** C10 at two texts and one metadata entry. *)
Lemma add_texts_missing_metadata_witness :
  ∃ self' w',
    add_texts ex_split ex_embed_documents ex_empty_store ["a"; "b"]
              (Some [{[ "source" := "one" ]}]) ex_world = (Ok tt, self', w') ∧
    metadatas self' !! chunk_position ex_split ex_empty_store ["a"; "b"] 1 0
    = Some ∅.
Proof.
  destruct (add_texts_missing_metadata ex_split ex_embed_documents
              ex_empty_store ex_world ["a"; "b"]
              (Some [{[ "source" := "one" ]}]) eq_refl)
    as (self' & w' & Hadd & Hmeta).
  - intros _. discriminate.
  - exists self', w'. split; [exact Hadd|].
    exact (proj2 (Hmeta 1%nat "b" 0%nat "b" eq_refl eq_refl eq_refl)).
Defined.

(** C5 fails on the code: a store whose embeddings have two components
    receives a vector with one; the call succeeds and the vector is
    stored. *)
Lemma add_texts_dimension_counterexample :
  let self := VSM "vs" ["x"] [[1%float; 0%float]] [∅] in
  let out := add_texts ex_split ex_embed_short self ["y"] None ex_world in
  ex_embed_short (gw_log ex_world) ["y"] = Some [[1%float]] ∧
  out.1.1 = Ok tt ∧
  doc_embeddings out.1.2 = [[1%float; 0%float]; [1%float]] ∧
  out.1.2 ≠ self.
Proof. split_and!; [reflexivity..|discriminate]. Qed.

Lemma add_texts_appends_any_dimension_witness :
  let self := VSM "vs" ["x"] [[1%float; 0%float]] [∅] in
  ∃ self' w',
    add_texts ex_split ex_embed_short self ["y"] None ex_world = (Ok tt, self', w') ∧
    doc_embeddings self' = [[1%float; 0%float]] ++ [[1%float]].
Proof.
  intros self.
  destruct (add_texts_appends_any_dimension ex_split ex_embed_short self
              ex_world ["y"] None [[1%float]])
    as (self' & w' & Hadd & Hemb & _); [discriminate|reflexivity|].
  exists self', w'. split; [exact Hadd|exact Hemb].
Defined.

(** C8 at the empty store. *)
Lemma similarity_search_empty_store_witness :
  similarity_search ex_query_down ex_empty_store "q" 4 ex_world = (Ok [], ex_world).
Proof.
  exact (similarity_search_empty_store ex_query_down ex_empty_store "q" 4
           ex_world eq_refl).
Defined.

(** C4 fails on the code: the provider is down, the store is not empty, and
    the caller gets the empty list, not an error. *)
Lemma similarity_search_failure_counterexample :
  documents ex_store_xyz ≠ [] ∧
  ex_query_down (gw_log ex_world) "q" = None ∧
  (similarity_search ex_query_down ex_store_xyz "q" 4 ex_world).1 = Ok [] ∧
  ∀ e, (similarity_search ex_query_down ex_store_xyz "q" 4 ex_world).1 ≠ Raise e.
Proof. split_and!; [discriminate|reflexivity|reflexivity|discriminate]. Qed.

Lemma similarity_search_swallows_provider_failure_witness :
  similarity_search ex_query_down ex_store_xyz "q" 4 ex_world
  = (Ok [], log_call (EmbedQuery "q") ex_world).
Proof.
  apply (similarity_search_swallows_provider_failure ex_query_down
           ex_store_xyz "q" 4 ex_world); [discriminate|reflexivity].
Defined.

(** C3 fails on the code: two documents with the same similarity come back
    with the one inserted later first. *)
Lemma similarity_search_ties_counterexample :
  similarity_of ex_store_tie [1%float; 0%float] 0
  = similarity_of ex_store_tie [1%float; 0%float] 1 ∧
  (similarity_search ex_embed_query ex_store_tie "q" 4 ex_world).1
  = Ok [SearchResult "second" ∅; SearchResult "first" ∅].
Proof. split; vm_compute; reflexivity. Qed.

(** C3 as amended, at the spec's example: x, z, y. *)
Lemma similarity_search_ranking_witness :
  ∃ idxs results,
    top_k_indices ex_store_xyz [1%float; 0%float] 5 = Ok idxs ∧
    (similarity_search ex_embed_query ex_store_xyz "q" 5 ex_world).1 = Ok results ∧
    Forall2 (is_result_for ex_store_xyz) idxs results.
Proof.
  destruct (similarity_search_ranking ex_embed_query ex_store_xyz "q" 5
              ex_world [1%float; 0%float] eq_refl eq_refl)
    as (idxs & results & Htop & Hres & Hfor & _).
  - intros e He.
    repeat (apply elem_of_cons in He as [->|He];
            [eexists; split; vm_compute; reflexivity|]).
    by apply elem_of_nil in He.
  - exists idxs, results. split; [exact Htop|]. split; [exact Hres|exact Hfor].
Defined.



(** C2 at two agents: ["b"] was trained, then ["a"] is; a question to
    ["b"] is answered from what ["b"] held before. *)
Lemma namespace_isolation_witness :
  let w := ex_trained_b.2 in
  let w' := (train_agent_from_text ex_split ex_embed_documents ex_trained_b.1.2
               "a" "what a knows" "user_input" "2024-01-02T00:00:00" w).2 in
  recorded_path w "b" = Some (agent_vector_dir "vector_store" "b") ∧
  stored_documents w' (pkl_path (agent_vector_dir "vector_store" "a"))
  = ["what a knows"] ∧
  ∀ docs w'',
    answer_question_docs ex_embed_query ex_empty_store "q" (Some "b") w'
    = (Ok (Docs docs), w'') →
    ∀ r, r ∈ docs →
      page_content r
      ∈ stored_documents w (pkl_path (agent_vector_dir "vector_store" "b")).
Proof.
  intros w w'. split; [vm_compute; reflexivity|].
  split; [vm_compute; reflexivity|].
  assert (∀ p, recorded_path w "b" = Some p →
               p = agent_vector_dir (vector_dir ex_trained_b.1.2) "b") as Hrec.
  { intros p Hp. vm_compute in Hp. injection Hp as <-. vm_compute. reflexivity. }
  destruct (namespace_isolation ex_split ex_embed_documents ex_embed_query
              ex_trained_b.1.2 "a" "b" "what a knows" "user_input"
              "2024-01-02T00:00:00" "q" ex_empty_store w)
    as (_ & _ & _ & Hread & _);
    [discriminate|reflexivity|reflexivity|discriminate|exact Hrec|].
  exact Hread.
Defined.

(** * More about the vector store *)

Section StoreExtras.

Context (split_text : string -> list string).
Context (embed_documents_reply : list gw_call -> list string -> option (list vector)).
Context (embed_query_reply : list gw_call -> string -> option vector).

(** X1. Batching: [add_texts] does nothing at all when the texts give no
    chunk, and otherwise calls the provider exactly once, with all chunks of
    all texts in input order. *)
Theorem add_texts_one_batch
    (self : VectorStoreManager) (texts : list string)
    (mds : option (list meta)) (w : world) :
  let out := add_texts split_text embed_documents_reply self texts mds w in
  (chunks_of split_text texts = [] ∧ out = (Ok tt, self, w)) ∨
  (chunks_of split_text texts ≠ [] ∧
   gw_log out.2 = gw_log w ++ [EmbedDocuments (chunks_of split_text texts)]).
Proof.
  intros out. unfold out.
  destruct (add_texts_cases split_text embed_documents_reply self texts mds w)
    as [[He ->]|[(Hne & _ & ->)|(vs & Hne & _ & ->)]]; [by left|by right..].
Qed.

Lemma add_texts_prefix self texts mds w :
  let self' := (add_texts split_text embed_documents_reply self texts mds w).1.2 in
  documents self `prefix_of` documents self' ∧
  doc_embeddings self `prefix_of` doc_embeddings self' ∧
  metadatas self `prefix_of` metadatas self' ∧
  persist_directory self' = persist_directory self.
Proof.
  destruct (add_texts_cases split_text embed_documents_reply self texts mds w)
    as [[_ ->]|[(_ & _ & ->)|(vs & _ & _ & ->)]]; simpl;
    split_and!; try done; by apply prefix_app_r.
Qed.

(** X2. Append-only: whatever calls are made, and whether they succeed or
    raise, the documents, embeddings and metadatas the store held before
    are still there, at the same positions. *)
Theorem add_texts_append_only
    (calls : list (list string * option (list meta)))
    (self : VectorStoreManager) (w : world) :
  let self' := (run_add_texts split_text embed_documents_reply calls self w).1 in
  documents self `prefix_of` documents self' ∧
  doc_embeddings self `prefix_of` doc_embeddings self' ∧
  metadatas self `prefix_of` metadatas self'.
Proof.
  revert self w. induction calls as [|[texts mds] calls IH]; intros self w; simpl.
  - done.
  - pose proof (add_texts_prefix self texts mds w) as (Hd & He & Hm & _).
    destruct (add_texts split_text embed_documents_reply self texts mds w)
      as [[r self1] w1]. simpl in *.
    destruct (IH self1 w1) as (Hd' & He' & Hm').
    split_and!; by etrans.
Qed.

(** What [_load_data] reads depends on the files and directories only. *)
Lemma init_same_files d w1 w2 :
  files w1 = files w2 → dirs w1 = dirs w2 →
  (VectorStoreManager_init d w1).1 = (VectorStoreManager_init d w2).1.
Proof.
  intros Hf Hd. unfold VectorStoreManager_init, _load_data, os_path_exists,
    os_makedirs. simpl. by rewrite Hf, Hd.
Qed.

Lemma init_idempotent d w :
  (VectorStoreManager_init d (VectorStoreManager_init d w).2).1
  = (VectorStoreManager_init d w).1.
Proof.
  unfold VectorStoreManager_init at 2. simpl.
  unfold VectorStoreManager_init, _load_data, os_path_exists, os_makedirs.
  simpl. by rewrite (assoc_L (∪)), (idemp_L (∪)).
Qed.

Lemma run_add_texts_synced calls : ∀ self w,
  (VectorStoreManager_init (persist_directory self) w).1 = self →
  (VectorStoreManager_init (persist_directory self)
     (run_add_texts split_text embed_documents_reply calls self w).2).1
  = (run_add_texts split_text embed_documents_reply calls self w).1.
Proof.
  induction calls as [|[texts mds] calls IH]; intros self w Hsync;
    cbn [run_add_texts].
  - done.
  - destruct (add_texts_cases split_text embed_documents_reply self texts mds w)
      as [[_ Heq]|[(_ & _ & Heq)|(vs & _ & _ & Heq)]]; cbv zeta in Heq;
      rewrite Heq.
    + by apply IH.
    + apply IH. rewrite <- Hsync at 2. by apply init_same_files.
    + set (self' := VSM (persist_directory self) _ _ _).
      apply (IH self'). apply (save_then_init self').
Qed.

(** X3. A manager and its snapshot stay in step: a manager made by
    [__init__] and changed by [add_texts] calls only holds, after any
    number of them, exactly what a new manager on the same directory
    loads. *)
Theorem fresh_manager_sees_all_writes
    (calls : list (list string * option (list meta)))
    (dir : string) (w0 : world) :
  let start := VectorStoreManager_init dir w0 in
  let now := run_add_texts split_text embed_documents_reply calls start.1 start.2 in
  (VectorStoreManager_init dir now.2).1 = now.1.
Proof.
  intros start now.
  assert (persist_directory start.1 = dir) as Hdir
    by apply init_persist_directory.
  pose proof (run_add_texts_synced calls start.1 start.2) as H.
  rewrite Hdir in H. apply H, init_idempotent.
Qed.

(** X4. A missing or unreadable snapshot gives an empty store: when the
    snapshot file is absent or does not unpickle to a dict, [__init__]
    returns a manager without documents, embeddings and metadatas, and
    raises nothing. *)
Theorem init_without_snapshot (dir : string) (w : world) :
  (∀ docs embs metas,
     files w !! pkl_path dir ≠ Some (Pickled docs embs metas)) →
  (VectorStoreManager_init dir w).1 = VSM dir [] [] [].
Proof.
  intros Hno. unfold VectorStoreManager_init, _load_data. simpl.
  destruct (os_path_exists _ _); [|done].
  destruct (files w !! pkl_path dir) as [[docs embs metas| |]|] eqn:Hf; try done.
  by destruct (Hno docs embs metas).
Qed.

End StoreExtras.

(** * More about searching *)

Section SearchExtras.

Context (embed_query_reply : list gw_call -> string -> option vector).

Lemma length_py_slice_to {A : Type} (k : Z) (l : list A) :
  (0 ≤ k)%Z → length (py_slice_to k l) = (Z.to_nat k `min` length l)%nat.
Proof.
  intros Hk. unfold py_slice_to.
  destruct (Z.leb_spec 0 k); [|lia]. apply length_take.
Qed.

Lemma length_similarities_from qe embs : ∀ i0 sims,
  similarities_from qe i0 embs = Ok sims → length sims = length embs.
Proof.
  intros i0 sims H. apply similarities_from_spec in H as [H _].
  apply (f_equal length) in H. by rewrite length_fmap, length_seq in H.
Qed.

Lemma length_results_for self idxs rs :
  results_for self idxs = Ok rs → length rs = length idxs.
Proof.
  revert rs. induction idxs as [|i idxs IH]; intros rs H; simpl in H.
  - by injection H as <-.
  - destruct (result_at self i); [|done]. simpl in H.
    destruct (results_for self idxs) as [rest|]; [|done].
    simpl in H. injection H as <-. simpl. f_equal. by apply IH.
Qed.

Lemma similarity_search_length
    (self : VectorStoreManager) (query : string) (k : Z) (w : world)
    (results : list search_result) :
  (0 ≤ k)%Z →
  (similarity_search embed_query_reply self query k w).1 = Ok results →
  (length results ≤ Z.to_nat k)%nat.
Proof.
  intros Hk Hs. unfold similarity_search in Hs.
  destruct (documents self) as [|d ds]; [injection Hs as <-; simpl; lia|].
  destruct (embed_query embed_query_reply query w) as [[qe|e] w1]; simpl in Hs;
    [|injection Hs as <-; simpl; lia].
  unfold search_body, top_k_indices in Hs.
  destruct (similarities_from qe 0 (doc_embeddings self)) as [sims|];
    simpl in Hs; [|injection Hs as <-; simpl; lia].
  destruct (results_for self _) as [rs|] eqn:Hrs;
    [|injection Hs as <-; simpl; lia].
  injection Hs as <-. apply length_results_for in Hrs.
  rewrite Hrs, length_fmap, length_py_slice_to by done. lia.
Qed.

(** X5. Never more than [k]: for [k >= 0], whatever the store holds and
    whatever the provider does, [similarity_search] returns at most [k]
    results, and the text of each is a stored document. *)
Theorem similarity_search_at_most_k
    (self : VectorStoreManager) (query : string) (k : Z) (w : world)
    (results : list search_result) :
  (0 ≤ k)%Z →
  (similarity_search embed_query_reply self query k w).1 = Ok results →
  (length results ≤ Z.to_nat k)%nat ∧
  ∀ r, r ∈ results → page_content r ∈ documents self.
Proof.
  intros Hk Hs. split; [by apply (similarity_search_length self query k w)|].
  destruct (similarity_search embed_query_reply self query k w) as [r w'] eqn:Heq.
  simpl in Hs. subst r. by eapply similarity_search_stored.
Qed.

(** X6. k saturation: on a store with as many documents as embeddings,
    when the query is embedded and every similarity can be computed, a
    search with [k >= 0] returns exactly [min(k, n)] results for [n] stored
    documents, each for a different document. *)
Theorem similarity_search_count
    (self : VectorStoreManager) (query : string) (k : Z) (w : world)
    (query_embedding : vector) :
  (0 ≤ k)%Z →
  length (documents self) = length (doc_embeddings self) →
  embed_query_reply (gw_log w) query = Some query_embedding →
  (∀ e, e ∈ doc_embeddings self →
     ∃ s, _cosine_similarity query_embedding e = Ok s) →
  ∃ idxs results,
    (similarity_search embed_query_reply self query k w).1 = Ok results ∧
    Forall2 (is_result_for self) idxs results ∧ NoDup idxs ∧
    length results = (Z.to_nat k `min` length (documents self))%nat.
Proof.
  intros Hk Hlen Hreply Hall.
  destruct (similarities_from_ok query_embedding (doc_embeddings self) 0%nat Hall)
    as [sims Hsims].
  destruct (similarities_from_spec _ _ _ _ Hsims) as [Hidx Hel].
  pose proof (length_similarities_from _ _ _ _ Hsims) as Hlsims.
  pose proof (py_sort_reverse_perm tuple_lt sims) as Hperm.
  set (top := py_slice_to k (py_sort_reverse tuple_lt sims)).
  assert (top_k_indices self query_embedding k = Ok top.*2) as Htop.
  { unfold top_k_indices. by rewrite Hsims. }
  assert (length top.*2 = (Z.to_nat k `min` length (documents self))%nat) as Hltop.
  { unfold top. rewrite length_fmap, length_py_slice_to by done.
    by rewrite Hperm, Hlsims, Hlen. }
  destruct (py_slice_to_prefix k (py_sort_reverse tuple_lt sims)) as [n Hn].
  fold top in Hn.
  assert (∀ i, i ∈ top.*2 → (i < length (documents self))%nat) as Hin.
  { intros i Hi. apply list_elem_of_fmap in Hi as ([s i'] & -> & Hi).
    rewrite Hn in Hi.
    assert ((s, i') ∈ sims) as Hs.
    { rewrite <- Hperm. eapply elem_of_sublist; [exact Hi|apply sublist_take]. }
    destruct (Hel s i' Hs) as [_ (e & He & _)]. rewrite Nat.sub_0_r in He.
    rewrite Hlen. by eapply lookup_lt_Some. }
  destruct (results_for_ok self top.*2 Hin) as (rs & Hrs & Hf).
  exists top.*2, rs. split_and!.
  - unfold similarity_search, embed_query. rewrite Hreply.
    destruct (documents self) as [|d ds] eqn:Hdocs.
    + simpl in Hltop. rewrite Nat.min_0_r in Hltop.
      apply nil_length_inv in Hltop. rewrite Hltop in Hf. by inversion Hf.
    + simpl. unfold search_body. rewrite Htop. simpl. by rewrite Hrs.
  - done.
  - rewrite Hn, fmap_take.
    apply (sublist_NoDup _ (py_sort_reverse tuple_lt sims).*2);
      [|apply sublist_take].
    rewrite Hperm, Hidx. apply NoDup_seq.
  - apply length_results_for in Hrs. by rewrite Hrs.
Qed.

End SearchExtras.

Section BestFirst.

Context (embed_query_reply : list gw_call -> string -> option vector).

Lemma float_leb_refl s : PyFloat.is_nan s = false → PrimFloat.leb s s = true.
Proof.
  intros Hs. apply FloatOrder.float_leb_compare. right.
  apply FloatOrder.SFcompare_refl. by apply FloatOrder.not_nan_spec.
Qed.

(** X7. The best match comes first: under the conditions of the ranking
    theorem, a search with [k >= 1] on a non-empty store returns a first
    result whose similarity is at least that of every stored document. *)
Theorem similarity_search_best_first
    (self : VectorStoreManager) (query : string) (k : Z) (w : world)
    (query_embedding : vector) :
  (1 ≤ k)%Z →
  documents self ≠ [] →
  length (documents self) = length (doc_embeddings self) →
  embed_query_reply (gw_log w) query = Some query_embedding →
  (∀ e, e ∈ doc_embeddings self →
     ∃ s, _cosine_similarity query_embedding e = Ok s ∧ PyFloat.is_nan s = false) →
  ∃ i0 s0 r0 rest,
    (similarity_search embed_query_reply self query k w).1 = Ok (r0 :: rest) ∧
    is_result_for self i0 r0 ∧
    similarity_of self query_embedding i0 = Some s0 ∧
    ∀ j sj, similarity_of self query_embedding j = Some sj →
            PrimFloat.leb sj s0 = true.
Proof.
  intros Hk Hne Hlen Hreply Hall.
  assert (∀ e, e ∈ doc_embeddings self →
               ∃ s, _cosine_similarity query_embedding e = Ok s) as Hall'.
  { intros e He. destruct (Hall e He) as (s & Hs & _). eauto. }
  destruct (similarities_from_ok query_embedding (doc_embeddings self) 0%nat Hall')
    as [sims Hsims].
  destruct (similarities_from_spec _ _ _ _ Hsims) as [Hidx Hel].
  pose proof (py_sort_reverse_perm tuple_lt sims) as Hperm.
  pose proof (py_sort_reverse_desc tuple_lt FloatOrder.tuple_lt_asym
                FloatOrder.tuple_lt_trans sims) as Hsorted.
  assert (∀ s i, (s, i) ∈ sims →
            similarity_of self query_embedding i = Some s ∧
            PyFloat.is_nan s = false ∧ (i < length (documents self))%nat) as Hsim.
  { intros s i Hin. destruct (Hel s i Hin) as [_ (e & He & Hc)].
    rewrite Nat.sub_0_r in He. unfold similarity_of. rewrite He. simpl.
    rewrite Hc. split; [done|]. split.
    - destruct (Hall e) as (s' & Hs' & Hnan); [by eapply list_elem_of_lookup_2|].
      congruence.
    - rewrite Hlen. by eapply lookup_lt_Some. }
  destruct (py_sort_reverse tuple_lt sims) as [|[s0 i0] tl] eqn:Hsort.
  { apply Permutation_nil_l in Hperm. subst sims.
    apply (f_equal length) in Hidx. rewrite length_seq in Hidx. simpl in Hidx.
    destruct (documents self); [done|]. simpl in Hlen. lia. }
  assert ((s0, i0) ∈ sims) as Hin0 by (rewrite <- Hperm; by left).
  destruct (Hsim s0 i0 Hin0) as (Hs0 & Hnan0 & Hi0).
  assert (∃ n, py_slice_to k ((s0, i0) :: tl) = (s0, i0) :: take n tl) as [n Hn].
  { unfold py_slice_to. destruct (Z.leb_spec 0 k); [|lia].
    destruct (Z.to_nat k) as [|m] eqn:Hm; [lia|]. by exists m. }
  assert (top_k_indices self query_embedding k = Ok (i0 :: (take n tl).*2)) as Htop.
  { unfold top_k_indices. rewrite Hsims. simpl. by rewrite Hsort, Hn. }
  destruct (results_for_ok self (i0 :: (take n tl).*2)) as (rs & Hrs & Hf).
  { intros i Hi. apply elem_of_cons in Hi as [->|Hi]; [done|].
    apply list_elem_of_fmap in Hi as ([s i'] & -> & Hi).
    apply (Hsim s i'). rewrite <- Hperm. right.
    eapply elem_of_sublist; [exact Hi|apply sublist_take]. }
  inversion Hf as [|? r0 ? rest Hr0 Hrest]; subst.
  exists i0, s0, r0, rest. split_and!; [|done|done|].
  - unfold similarity_search, embed_query. rewrite Hreply.
    destruct (documents self); [done|]. simpl.
    unfold search_body. rewrite Htop.
    change (Ok (i0 :: (take n tl).*2) ≫= λ idxs, results_for self idxs)
      with (results_for self (i0 :: (take n tl).*2)).
    by rewrite Hrs.
  - intros j sj Hj.
    assert ((sj, j) ∈ sims) as Hinj.
    { unfold similarity_of in Hj.
      destruct (doc_embeddings self !! j) as [e|] eqn:He; [|done]. simpl in Hj.
      destruct (_cosine_similarity query_embedding e) as [s|] eqn:Hc; [|done].
      injection Hj as ->.
      assert (j ∈ sims.*2) as Hjin.
      { rewrite Hidx. apply elem_of_seq. apply lookup_lt_Some in He. lia. }
      apply list_elem_of_fmap in Hjin as ([s' j'] & -> & Hin').
      destruct (Hel s' j' Hin') as [_ (e' & He' & Hc')].
      rewrite Nat.sub_0_r in He'. simpl in *.
      assert (e' = e) as -> by congruence.
      assert (s' = sj) as -> by congruence. done. }
    destruct (Hsim sj j Hinj) as (_ & Hnanj & _).
    rewrite <- Hperm in Hinj. apply elem_of_cons in Hinj as [[= -> ->]|Hinj].
    + by apply float_leb_refl.
    + apply StronglySorted_cons in Hsorted as [Hhd _].
      rewrite Forall_forall in Hhd. specialize (Hhd _ Hinj).
      by destruct (FloatOrder.tuple_not_lt (s0, i0) (sj, j) Hnan0 Hnanj Hhd).
Qed.

End BestFirst.

(** * Symmetry of the cosine similarity *)

Lemma SF64mul_comm X Y : SF64mul X Y = SF64mul Y X.
Proof.
  unfold SF64mul, SFmul.
  destruct X as [sx|sx| |sx mx ex], Y as [sy|sy| |sy my ey];
    rewrite ?(xorb_comm sx sy); try done.
  by rewrite (Pos.mul_comm mx my), (Z.add_comm ex ey).
Qed.

Lemma float_mul_comm (x y : float) : PrimFloat.mul x y = PrimFloat.mul y x.
Proof. apply Prim2SF_inj. rewrite !mul_spec. apply SF64mul_comm. Qed.

Lemma zip_with_mul_comm (a : vector) : ∀ b : vector,
  zip_with PrimFloat.mul a b = zip_with PrimFloat.mul b a.
Proof.
  induction a as [|x a IH]; intros [|y b]; simpl; try done.
  by rewrite float_mul_comm, IH.
Qed.

(** X8. [_cosine_similarity] is symmetric: exchanging the two vectors gives
    the same result: the same number, or NaN both ways. *)
Theorem cosine_similarity_symmetric (a b : vector) :
  _cosine_similarity a b = _cosine_similarity b a.
Proof.
  unfold _cosine_similarity.
  rewrite (zip_with_mul_comm a b), orb_comm.
  by rewrite (float_mul_comm (PyFloat.pow_half _)).
Qed.

(** * The registry of agents *)

Lemma strip_prefix_app pre : ∀ r, strip_prefix pre (pre +:+ r) = Some r.
Proof.
  induction pre as [|c pre IH]; intros r; [done|].
  rewrite Paths.app_cons_string. simpl.
  rewrite bool_decide_eq_true_2 by done. apply IH.
Qed.

Lemma strip_suffix_app suf r : strip_suffix suf (r +:+ suf) = Some r.
Proof.
  induction r as [|c r IH]; rewrite strip_suffix_unfold.
  - rewrite Paths.app_nil_l_string, String.eqb_refl. done.
  - destruct (String.eqb_spec (String c r +:+ suf) suf) as [Heq|_].
    + apply (f_equal String.length) in Heq.
      rewrite Paths.length_app_string in Heq. simpl in Heq. lia.
    + rewrite Paths.app_cons_string, IH. done.
Qed.

Lemma load_agent_entry_sound d p f agent_id data :
  load_agent_entry d (p, f) = Some (agent_id, data) →
  p = agent_file d agent_id ∧ f = Json data ∧ has_sep agent_id = false.
Proof.
  unfold load_agent_entry, entry_name. simpl. intros Hentry.
  destruct (strip_prefix (dir_prefix d) p) as [name|] eqn:Hname; [|done].
  simpl in Hentry.
  destruct (has_sep name) eqn:Hsep; [done|]. simpl in Hentry.
  case_bool_decide; [done|]. simpl in Hentry.
  destruct (strip_suffix ".json" name) as [id'|] eqn:Hid; [|done].
  simpl in Hentry. destruct f as [| data' |]; try done.
  injection Hentry as -> ->.
  apply strip_prefix_Some in Hname. apply strip_suffix_Some in Hid. subst.
  split_and!; [|done|].
  - unfold agent_file. by rewrite Paths.os_path_join_name.
  - rewrite Paths.has_sep_app in Hsep. by apply orb_false_elim in Hsep as [? _].
Qed.

Lemma load_agent_entry_complete d agent_id data :
  has_sep agent_id = false →
  load_agent_entry d (agent_file d agent_id, Json data) = Some (agent_id, data).
Proof.
  intros Hid. unfold load_agent_entry, entry_name, agent_file. simpl.
  assert (has_sep (agent_id +:+ ".json") = false) as Hsep
    by (by rewrite Paths.has_sep_app, Hid).
  rewrite Paths.os_path_join_name, strip_prefix_app by done. simpl.
  rewrite Hsep. simpl.
  rewrite bool_decide_eq_false_2.
  2:{ intros Heq. apply (f_equal String.length) in Heq.
      rewrite Paths.length_app_string in Heq. simpl in Heq. lia. }
  simpl. by rewrite strip_suffix_app.
Qed.

Lemma load_agents_lookup (d : string) (w : world) (agent_id : string)
    (data : agent_data) :
  os_path_exists d w = true →
  (_load_agents d w !! agent_id = Some data
   ↔ has_sep agent_id = false ∧
      files w !! agent_file d agent_id = Some (Json data)).
Proof.
  intros Hex. unfold _load_agents. rewrite Hex. split.
  - intros H%elem_of_list_to_map_2.
    apply list_elem_of_omap in H as ([p f] & Hin & Hentry).
    apply elem_of_map_to_list in Hin.
    apply load_agent_entry_sound in Hentry as (-> & -> & Hsep). done.
  - intros [Hsep Hfile]. apply elem_of_list_to_map_1'.
    + intros y Hy. apply list_elem_of_omap in Hy as ([p f] & Hin & Hentry).
      apply elem_of_map_to_list in Hin.
      apply load_agent_entry_sound in Hentry as (-> & -> & _). congruence.
    + apply list_elem_of_omap. exists (agent_file d agent_id, Json data).
      split; [by apply elem_of_map_to_list|].
      by apply load_agent_entry_complete.
Qed.

(** X9. What [_load_agents] finds: in an existing directory, an agent id
    is loaded with a record exactly when the id has no [/] and the file
    [<id>.json] directly in the directory holds that record as JSON;
    files that do not parse are left out without disturbing the others. *)
Theorem load_agents_spec (d : string) (w : world) (agent_id : string)
    (data : agent_data) :
  os_path_exists d w = true →
  (_load_agents d w !! agent_id = Some data
   ↔ has_sep agent_id = false ∧
      files w !! agent_file d agent_id = Some (Json data)).
Proof. apply load_agents_lookup. Qed.

(** After [AgentTools.__init__] the base directory exists and the files are
    what they were. *)
Lemma AgentTools_init_world bd vd w :
  files (AgentTools_init bd vd w).2 = files w ∧
  os_path_exists bd (AgentTools_init bd vd w).2 = true ∧
  gw_log (AgentTools_init bd vd w).2 = gw_log w.
Proof.
  unfold AgentTools_init, VectorStoreManager_init, os_path_exists. simpl.
  split_and!; [done| |done].
  apply orb_true_iff. right. apply bool_decide_eq_true. set_solver.
Qed.

Lemma AgentTools_init_agents bd vd w :
  agents (AgentTools_init bd vd w).1 = _load_agents bd (AgentTools_init bd vd w).2.
Proof. done. Qed.

(** X10. A created agent is on disk: [create_agent] with an id without [/]
    keeps the record in memory, with [knowledge_base_status] ["empty"] and
    the given name, and any [AgentTools] constructed afterwards on the same
    base directory loads the same record. *)
Theorem create_agent_persisted
    (self : AgentTools) (name greeting description uuid created_at updated_at : string)
    (w : world) (vd : string) :
  has_sep uuid = false →
  let out := create_agent self name greeting description uuid
                          created_at updated_at w in
  let data := created_agent out.1.1 in
  created_agent_id out.1.1 = uuid ∧
  data !! "name" = Some name ∧
  data !! "knowledge_base_status" = Some "empty" ∧
  data !! "vector_store_path" = None ∧
  agents out.1.2 !! uuid = Some data ∧
  agents (AgentTools_init (base_dir self) vd out.2).1 !! uuid = Some data.
Proof.
  intros Hsep out data. split_and!; try done.
  - apply lookup_insert_eq.
  - destruct (AgentTools_init_world (base_dir self) vd out.2) as (Hf & Hex & _).
    rewrite AgentTools_init_agents. apply load_agents_lookup; [done|].
    split; [done|]. rewrite Hf. apply lookup_insert_eq.
Qed.

(** * Training an agent *)

Lemma last_char_os_path_join d n :
  n ≠ "" → last_char (os_path_join d n) = last_char n.
Proof.
  intros Hn. unfold os_path_join. destruct (starts_with_sep n); [done|].
  destruct (last_char d) as [c|]; [|done].
  case_bool_decide; [by apply Paths.last_char_app|].
  rewrite Paths.last_char_app by done.
  destruct n; [done|]. done.
Qed.

(** A record of the registry is never a snapshot, whatever the id. *)
Lemma agent_file_not_pkl bd a d : agent_file bd a ≠ pkl_path d.
Proof.
  unfold agent_file, pkl_path. intros Heq.
  apply (f_equal last_char) in Heq.
  rewrite !last_char_os_path_join in Heq.
  - by rewrite Paths.last_char_app in Heq.
  - done.
  - intros H. apply (f_equal String.length) in H.
    rewrite Paths.length_app_string in H. simpl in H. lia.
Qed.

Lemma init_lists d w :
  (VectorStoreManager_init d w).1
  = VSM d (stored_lists w (pkl_path d)).1.1 (stored_lists w (pkl_path d)).1.2
          (stored_lists w (pkl_path d)).2.
Proof.
  unfold VectorStoreManager_init, _load_data, stored_lists.
  cbn [fst persist_directory].
  change (files (os_makedirs d w)) with (files w).
  destruct (os_path_exists _ _) eqn:He.
  - by destruct (files w !! pkl_path d) as [[]|].
  - unfold os_path_exists in He. apply orb_false_elim in He as [He _].
    apply bool_decide_eq_false in He.
    change (files (os_makedirs d w)) with (files w) in He.
    destruct (files w !! pkl_path d) as [f|]; [|done].
    exfalso. apply He. by eexists.
Qed.

Section TrainFacts.

Context (split_text : string -> list string).
Context (embed_documents_reply : list gw_call -> list string -> option (list vector)).
Context (embed_query_reply : list gw_call -> string -> option vector).

(** The three ways [train_agent_from_text] goes on for a known agent. *)
Lemma train_agent_cases self a text source now w data :
  agents self !! a = Some data →
  let dir := agent_vector_dir (vector_dir self) a in
  let chunks := split_text text in
  let old := stored_lists w (pkl_path dir) in
  let w2 := os_makedirs dir (os_makedirs dir w) in
  let data' := <[ "vector_store_path" := dir ]>
                 (<[ "updated_at" := now ]>
                    (<[ "knowledge_base_status" := "trained" ]> data)) in
  let self' := Tools (base_dir self) (vector_dir self) (vector_manager self)
                     (<[ a := data' ]> (agents self)) in
  let reply := match data !! "name" with
               | Some name => Success ("Agent '" +:+ name +:+ "' trained successfully")
               | None => Failure (Caught KeyError)
               end in
  let out := train_agent_from_text split_text embed_documents_reply
               self a text source now w in
  (chunks = [] ∧ out = (reply, self', _save_agent self' a data' w2)) ∨
  (chunks ≠ [] ∧ embed_documents_reply (gw_log w) chunks = None ∧
   out = (Failure (Caught EmbeddingError), self,
          log_call (EmbedDocuments chunks) w2)) ∨
  (∃ vs, chunks ≠ [] ∧ embed_documents_reply (gw_log w) chunks = Some vs ∧
   let mgr := VSM dir (old.1.1 ++ chunks) (old.1.2 ++ vs)
                  (old.2 ++ replicate (length chunks) {[ "source" := source ]}) in
   out = (reply, self',
          _save_agent self' a data'
            (_save_data mgr (log_call (EmbedDocuments chunks) w2)))).
Proof.
  intros Hdata dir chunks old w2 data' self' reply out.
  unfold out, train_agent_from_text. rewrite Hdata. fold dir.
  pose proof (init_lists dir (os_makedirs dir w)) as Hinit.
  change (stored_lists (os_makedirs dir w) (pkl_path dir)) with old in Hinit.
  destruct (VectorStoreManager_init dir (os_makedirs dir w)) as [mgr0 w2'] eqn:Hi.
  assert (w2' = w2) as -> by (by injection Hi).
  simpl in Hinit. subst mgr0.
  assert (chunks_of split_text [text] = chunks) as Hchunks
    by (unfold chunks_of; simpl; by rewrite app_nil_r).
  assert (metas_of split_text (Some [{[ "source" := source ]}]) 0 [text]
          = replicate (length chunks) {[ "source" := source ]}) as Hmetas
    by (simpl; by rewrite app_nil_r).
  assert (data' !! "name" = data !! "name") as Hname.
  { unfold data'. by rewrite !lookup_insert_ne. }
  destruct (add_texts_cases split_text embed_documents_reply
              (VSM dir old.1.1 old.1.2 old.2) [text]
              (Some [{[ "source" := source ]}]) w2)
    as [[He Heq]|[(Hne & Hr & Heq)|(vs & Hne & Hr & Heq)]];
    rewrite Hchunks in *; cbv zeta in Heq; rewrite Heq.
  - left. split; [done|]. fold data'. rewrite Hname. unfold reply.
    by destruct (data !! "name").
  - right. left. done.
  - right. right. exists vs. split; [done|]. split; [done|].
    rewrite Hmetas. cbn [persist_directory documents doc_embeddings metadatas].
    fold data'. rewrite Hname. unfold reply. by destruct (data !! "name").
Qed.

Lemma train_agent_stored_lists
    (self : AgentTools) (a text source now : string) (w : world)
    (data : agent_data) (vs : list vector) :
  agents self !! a = Some data →
  split_text text ≠ [] →
  embed_documents_reply (gw_log w) (split_text text) = Some vs →
  let dir := agent_vector_dir (vector_dir self) a in
  let old := stored_lists w (pkl_path dir) in
  let out := train_agent_from_text split_text embed_documents_reply
               self a text source now w in
  stored_lists out.2 (pkl_path dir)
  = (old.1.1 ++ split_text text, old.1.2 ++ vs,
     old.2 ++ replicate (length (split_text text)) {[ "source" := source ]}) ∧
  ∃ data',
    agents out.1.2 !! a = Some data' ∧
    files out.2 !! agent_file (base_dir self) a = Some (Json data') ∧
    data' !! "knowledge_base_status" = Some "trained" ∧
    data' !! "vector_store_path" = Some dir.
Proof.
  intros Hdata Hne Hr dir old out.
  destruct (train_agent_cases self a text source now w data Hdata)
    as [[He _]|[(_ & Hnone & _)|(vs' & _ & Hr' & Heq)]]; [done|congruence|].
  assert (vs' = vs) as -> by congruence.
  cbv zeta in Heq. fold dir old in Heq. unfold out. rewrite Heq. split.
  - unfold stored_lists, _save_agent. cbn [files snd].
    rewrite lookup_insert_ne by apply agent_file_not_pkl.
    unfold _save_data. cbn [files persist_directory].
    by rewrite lookup_insert_eq.
  - eexists. split_and!.
    + cbn [agents fst snd]. apply lookup_insert_eq.
    + unfold _save_agent. cbn [files snd base_dir]. apply lookup_insert_eq.
    + by rewrite lookup_insert_ne, lookup_insert_ne, lookup_insert_eq.
    + by rewrite lookup_insert_eq.
Qed.

(** X11. What a successful training stores: for a known agent, a text that
    gives chunks and a provider that answers, the agent's snapshot
    afterwards holds what it held before followed by the new chunks, their
    vectors, and once per chunk the metadata [{"source": source}]; the
    agent's record, in memory and on disk, says ["trained"] and names the
    agent's own directory. *)
Theorem train_agent_stores_with_source
    (self : AgentTools) (a text source now : string) (w : world)
    (data : agent_data) (vs : list vector) :
  agents self !! a = Some data →
  split_text text ≠ [] →
  embed_documents_reply (gw_log w) (split_text text) = Some vs →
  let dir := agent_vector_dir (vector_dir self) a in
  let old := stored_lists w (pkl_path dir) in
  let out := train_agent_from_text split_text embed_documents_reply
               self a text source now w in
  stored_lists out.2 (pkl_path dir)
  = (old.1.1 ++ split_text text, old.1.2 ++ vs,
     old.2 ++ replicate (length (split_text text)) {[ "source" := source ]}) ∧
  ∃ data',
    agents out.1.2 !! a = Some data' ∧
    files out.2 !! agent_file (base_dir self) a = Some (Json data') ∧
    data' !! "knowledge_base_status" = Some "trained" ∧
    data' !! "vector_store_path" = Some dir.
Proof. apply train_agent_stored_lists. Qed.

(** X12. A failed training changes nothing that matters: when the provider
    fails, [train_agent_from_text] reports the failure, the registry in
    memory is the same object, and no file is written, neither the snapshot
    nor the record. *)
Theorem train_agent_provider_failure
    (self : AgentTools) (a text source now : string) (w : world)
    (data : agent_data) :
  agents self !! a = Some data →
  split_text text ≠ [] →
  embed_documents_reply (gw_log w) (split_text text) = None →
  let out := train_agent_from_text split_text embed_documents_reply
               self a text source now w in
  out.1.1 = Failure (Caught EmbeddingError) ∧
  out.1.2 = self ∧
  files out.2 = files w.
Proof.
  intros Hdata Hne Hr out.
  destruct (train_agent_cases self a text source now w data Hdata)
    as [[He _]|[(_ & _ & Heq)|(vs' & _ & Hr' & _)]]; [done| |congruence].
  unfold out. by rewrite Heq.
Qed.

(** X13. Training with nothing to store: when the text gives no chunk (an
    empty text, say), the provider is not called and no snapshot is
    written, yet the agent's record is marked ["trained"] and names the
    directory, and the reply is the success message. *)
Theorem train_agent_without_chunks
    (self : AgentTools) (a text source now : string) (w : world)
    (data : agent_data) (name : string) :
  agents self !! a = Some data →
  data !! "name" = Some name →
  split_text text = [] →
  let dir := agent_vector_dir (vector_dir self) a in
  let out := train_agent_from_text split_text embed_documents_reply
               self a text source now w in
  out.1.1 = Success ("Agent '" +:+ name +:+ "' trained successfully") ∧
  gw_log out.2 = gw_log w ∧
  files out.2 !! pkl_path dir = files w !! pkl_path dir ∧
  ∃ data',
    files out.2 !! agent_file (base_dir self) a = Some (Json data') ∧
    data' !! "knowledge_base_status" = Some "trained" ∧
    data' !! "vector_store_path" = Some dir.
Proof.
  intros Hdata Hname Hempty dir out.
  destruct (train_agent_cases self a text source now w data Hdata)
    as [[_ Heq]|[(Hne & _)|(vs' & Hne & _)]]; [|done..].
  cbv zeta in Heq. fold dir in Heq. unfold out. rewrite Heq, Hname.
  split_and!; [done|done| |].
  - unfold _save_agent. cbn [files snd].
    by rewrite lookup_insert_ne by apply agent_file_not_pkl.
  - eexists. split_and!.
    + unfold _save_agent. cbn [files snd base_dir]. apply lookup_insert_eq.
    + by rewrite lookup_insert_ne, lookup_insert_ne, lookup_insert_eq.
    + by rewrite lookup_insert_eq.
Qed.

Lemma agent_vector_dir_nonempty vd a : agent_vector_dir vd a ≠ "".
Proof.
  intros Heq. apply (f_equal last_char) in Heq.
  unfold agent_vector_dir in Heq. rewrite last_char_os_path_join in Heq by done.
  change (last_char "") with (@None ascii) in Heq.
  apply Paths.last_char_None in Heq. done.
Qed.

Lemma train_success_world self a text source now w msg :
  let dir := agent_vector_dir (vector_dir self) a in
  let out := train_agent_from_text split_text embed_documents_reply
               self a text source now w in
  out.1.1 = Success msg →
  dir ∈ dirs out.2 ∧
  ∃ data', files out.2 !! agent_file (base_dir self) a = Some (Json data') ∧
           data' !! "vector_store_path" = Some dir.
Proof.
  intros dir out Hok.
  destruct (agents self !! a) as [data|] eqn:Hdata.
  2:{ unfold out, train_agent_from_text in Hok. by rewrite Hdata in Hok. }
  destruct (train_agent_cases self a text source now w data Hdata)
    as [[_ Heq]|[(_ & _ & Heq)|(vs' & _ & _ & Heq)]];
    cbv zeta in Heq; fold dir in Heq; unfold out in *; rewrite Heq in *.
  - split; [simpl; set_solver|]. eexists. split.
    + unfold _save_agent. cbn [files snd base_dir]. apply lookup_insert_eq.
    + by rewrite lookup_insert_eq.
  - done.
  - split; [simpl; set_solver|]. eexists. split.
    + unfold _save_agent. cbn [files snd base_dir]. apply lookup_insert_eq.
    + by rewrite lookup_insert_eq.
Qed.

(** X14. Train, then ask: after [train_agent_from_text] reported success
    for an agent of the registry under ["agents"] (id not empty, without
    [/]), [answer_question] for this agent finds it, finds it trained, and
    searches the agent's own snapshot: every document it retrieves is
    stored there. *)
Theorem trained_agent_is_searched
    (self : AgentTools) (a text source now question msg : string)
    (bot_vm : VectorStoreManager) (w : world) :
  base_dir self = "agents" → has_sep a = false → a ≠ "" →
  let dir := agent_vector_dir (vector_dir self) a in
  let out := train_agent_from_text split_text embed_documents_reply
               self a text source now w in
  out.1.1 = Success msg →
  ∃ docs w',
    answer_question_docs embed_query_reply bot_vm question (Some a) out.2
    = (Ok (Docs docs), w') ∧
    ∀ r, r ∈ docs → page_content r ∈ stored_documents out.2 (pkl_path dir).
Proof.
  intros Hbd Hsep Hne dir out Hok.
  destruct (train_success_world self a text source now w msg Hok)
    as (Hdir & data' & Hfile & Hpath).
  fold out dir in Hdir, Hfile, Hpath. rewrite Hbd in Hfile.
  assert (∃ docs w', answer_question_docs embed_query_reply bot_vm question
                       (Some a) out.2 = (Ok (Docs docs), w')) as (docs & w' & Hq).
  { unfold answer_question_docs. destruct a as [|c a']; [done|].
    set (id := String c a') in *.
    destruct (AgentTools_init_world "agents" "vector_store" out.2)
      as (Hf & Hex & _).
    pose proof (AgentTools_init_agents "agents" "vector_store" out.2) as Hag.
    assert (dir ∈ dirs (AgentTools_init "agents" "vector_store" out.2).2) as Hd
      by (simpl; set_solver).
    destruct (AgentTools_init "agents" "vector_store" out.2) as [tools w1].
    simpl in Hf, Hex, Hag, Hd. rewrite Hag.
    assert (_load_agents "agents" w1 !! id = Some data') as ->.
    { apply load_agents_lookup; [done|]. split; [done|]. by rewrite Hf. }
    rewrite Hpath.
    destruct dir as [|c' dir'] eqn:Hdir';
      [by destruct (agent_vector_dir_nonempty (vector_dir self) id)|].
    rewrite <- Hdir' in *.
    assert (os_path_exists dir w1 = true) as ->.
    { unfold os_path_exists. apply orb_true_iff. right.
      by apply bool_decide_eq_true. }
    destruct (VectorStoreManager_init dir w1) as [mgr w2].
    destruct (similarity_search_returns embed_query_reply mgr question 5 w2)
      as (rs & w3 & ->). eauto. }
  exists docs, w'. split; [done|].
  destruct (answer_question_agent_docs embed_query_reply _ _ _ _ _ _ Hne Hq)
    as (p & Hp & Hin).
  unfold recorded_path in Hp. rewrite Hfile, Hpath in Hp. injection Hp as <-.
  exact Hin.
Qed.

End TrainFacts.

(** * Other ways into the stores *)

Section MoreAgentFacts.

Context (split_text : string -> list string).
Context (embed_documents_reply : list gw_call -> list string -> option (list vector)).
Context (extract_text_from_url : string -> option string).

(** X15. Where knowledge from a URL comes from: when the page gives a
    non-empty text with chunks and the provider answers, [train_agent_from_url] adds the
    chunks to the agent's snapshot, each with the metadata
    [{"source": "url:<url>"}]; when the extractor raises or gives no text,
    nothing is written and the provider is not called. *)
Theorem train_agent_from_url_source
    (self : AgentTools) (a url now : string) (w : world) (data : agent_data) :
  agents self !! a = Some data →
  let dir := agent_vector_dir (vector_dir self) a in
  let old := stored_lists w (pkl_path dir) in
  let out := train_agent_from_url split_text embed_documents_reply
               extract_text_from_url self a url now w in
  (∀ content vs,
     extract_text_from_url url = Some content → content ≠ "" →
     split_text content ≠ [] →
     embed_documents_reply (gw_log w) (split_text content) = Some vs →
     stored_lists out.2 (pkl_path dir)
     = (old.1.1 ++ split_text content, old.1.2 ++ vs,
        old.2 ++ replicate (length (split_text content))
                           {[ "source" := "url:" +:+ url ]})) ∧
  (extract_text_from_url url = None ∨ extract_text_from_url url = Some "" →
   out.1.2 = self ∧ out.2 = w ∧
   ∀ msg, out.1.1 ≠ UrlTrained (Success msg)).
Proof.
  intros Hdata dir old out. split.
  - intros content vs Hcontent Hc Hne Hr.
    pose proof (train_agent_stored_lists split_text embed_documents_reply
                  self a content ("url:" +:+ url) now w data vs Hdata Hne Hr)
      as [Hstored _].
    unfold out, train_agent_from_url. rewrite Hdata, Hcontent.
    destruct content as [|c content']; [done|].
    destruct (train_agent_from_text _ _ _ _ _ _ _ _) as [[r self'] w']. exact Hstored.
  - intros [Hx|Hx]; unfold out, train_agent_from_url; rewrite Hdata, Hx; done.
Qed.

(** X16. The global store keeps to itself: [add_knowledge], on tools whose
    manager persists in their [vector_dir] (as [__init__] sets it up),
    writes no file but the global snapshot, so every agent's snapshot keeps
    its content; the registry is not touched; and when the provider fails,
    the reply says so and the manager and all files are unchanged. *)
Theorem add_knowledge_leaves_agents
    (self : AgentTools) (text : string) (w : world) :
  persist_directory (vector_manager self) = vector_dir self →
  let out := add_knowledge split_text embed_documents_reply self text w in
  (∀ p, p ≠ pkl_path (vector_dir self) → files out.2 !! p = files w !! p) ∧
  (∀ a, has_sep a = false →
        stored_lists out.2 (pkl_path (agent_vector_dir (vector_dir self) a))
        = stored_lists w (pkl_path (agent_vector_dir (vector_dir self) a))) ∧
  agents out.1.2 = agents self ∧
  (∀ e, out.1.1 = KnowledgeFailed e →
        e = EmbeddingError ∧ out.1.2 = self ∧ files out.2 = files w).
Proof.
  intros Hdir out.
  assert (∀ p, p ≠ pkl_path (vector_dir self) →
               files out.2 !! p = files w !! p) as Hframe.
  { intros p Hp. unfold out, add_knowledge.
    pose proof (add_texts_frame split_text embed_documents_reply
                  (vector_manager self) [text] None w p) as Hf.
    rewrite Hdir in Hf. specialize (Hf Hp).
    destruct (add_texts _ _ _ _ _ _) as [[[u|e] vm'] w'];
      simpl in *; done. }
  split_and!.
  - exact Hframe.
  - intros a Ha. unfold stored_lists. rewrite Hframe; [done|].
    by apply Paths.pkl_path_global_ne.
  - unfold out, add_knowledge.
    by destruct (add_texts _ _ _ _ _ _) as [[[u|e] vm'] w'].
  - intros e He. unfold out, add_knowledge in *.
    destruct (add_texts_cases split_text embed_documents_reply
                (vector_manager self) [text] None w)
      as [[_ Heq]|[(_ & _ & Heq)|(vs & _ & _ & Heq)]];
      cbv zeta in Heq; rewrite Heq in *; simpl in *; try done.
    injection He as <-. by destruct self.
Qed.

End MoreAgentFacts.

(** * Deleting an agent *)

(** X17. Deleting forgets the record and keeps the knowledge: for a known
    agent whose record file is not a directory, the [DELETE] route answers
    success, the agent is gone from memory, an [AgentTools] constructed
    afterwards on the same base directory does not load it, and yet the
    agent's snapshot, like every file but the record, is left as it was. *)
Theorem delete_agent_keeps_snapshot
    (tools : AgentTools) (a : string) (w : world) (data : agent_data) (vd : string) :
  agents tools !! a = Some data → data ≠ ∅ → a ≠ "" →
  agent_file (base_dir tools) a ∉ dirs w →
  let out := delete_agent tools a w in
  out.1.1 = Deleted ∧
  agents out.1.2 !! a = None ∧
  agents (AgentTools_init (base_dir tools) vd out.2).1 !! a = None ∧
  (∀ p, p ≠ agent_file (base_dir tools) a → files out.2 !! p = files w !! p) ∧
  stored_lists out.2 (pkl_path (agent_vector_dir (vector_dir tools) a))
  = stored_lists w (pkl_path (agent_vector_dir (vector_dir tools) a)).
Proof.
  intros Hdata Hnonempty Hne Hnodir out.
  assert (out.1.1 = Deleted ∧ agents out.1.2 !! a = None ∧
          files out.2 = delete (agent_file (base_dir tools) a) (files w))
    as (Hreply & Hmem & Hfiles).
  { unfold out, delete_agent, get_agent_status.
    destruct a as [|c a']; [done|]. rewrite Hdata.
    rewrite bool_decide_eq_false_2 by done.
    set (f := agent_file (base_dir tools) (String c a')) in *.
    unfold os_path_exists.
    rewrite (bool_decide_eq_false_2 (f ∈ dirs w)) by done. rewrite orb_false_r.
    destruct (files w !! f) as [x|] eqn:Hf.
    - rewrite bool_decide_eq_true_2 by (by eexists).
      simpl. split_and!; [done|apply lookup_delete_eq|done].
    - rewrite bool_decide_eq_false_2 by (by intros [? ?]).
      simpl. split_and!; [done|apply lookup_delete_eq|].
      by rewrite delete_id. }
  assert (∀ p, p ≠ agent_file (base_dir tools) a →
               files out.2 !! p = files w !! p) as Hframe.
  { intros p Hp. by rewrite Hfiles, lookup_delete_ne. }
  split_and!; [done|done| |done|].
  - destruct (AgentTools_init_world (base_dir tools) vd out.2) as (Hf & Hex & _).
    rewrite AgentTools_init_agents.
    destruct (_load_agents _ _ !! a) as [d|] eqn:Hload; [|done].
    apply load_agents_lookup in Hload as [_ Hload]; [|done].
    rewrite Hf, Hfiles, lookup_delete_eq in Hload. done.
  - unfold stored_lists. rewrite Hframe; [done|].
    apply not_eq_sym, agent_file_not_pkl.
Qed.

(** * The bot *)

Lemma py_last_app {A : Type} (n : nat) (old recent : list A) :
  length recent = n → py_last n (old ++ recent) = recent.
Proof.
  intros Hn. unfold py_last. rewrite length_app, Hn.
  replace (length old + n - n)%nat with (length old) by lia.
  apply drop_app_length.
Qed.

Lemma py_last_short {A : Type} (n : nat) (xs : list A) :
  (length xs ≤ n)%nat → py_last n xs = xs.
Proof.
  intros Hn. unfold py_last.
  replace (length xs - n)%nat with 0%nat by lia. done.
Qed.

Lemma format_history_window (old recent : list (string * string)) :
  (length recent ≤ 8)%nat →
  (old = [] ∨ length recent = 8%nat) →
  _format_history (old ++ recent) = py_join newline (history_lines recent).
Proof.
  intros Hle Hcase. unfold _format_history. destruct Hcase as [->|H8].
  - by rewrite app_nil_l, py_last_short.
  - by rewrite py_last_app.
Qed.

(** X18. [_format_history] keeps the last eight exchanges: a history of at
    most eight is rendered whole, two lines per exchange; of a longer one
    only the last eight count. *)
Theorem format_history_last_eight (old recent : list (string * string)) :
  (length recent ≤ 8)%nat →
  (old = [] ∨ length recent = 8%nat) →
  _format_history (old ++ recent) = py_join newline (history_lines recent) ∧
  length (history_lines recent) = (2 * length recent)%nat.
Proof.
  intros Hle Hcase. split; [by apply format_history_window|].
  unfold history_lines. clear. induction recent as [|qa recent IH]; [done|].
  rewrite fmap_cons, concat_cons, length_app, IH. simpl. lia.
Qed.

Section BotFacts.

Context (embed_query_reply : list gw_call -> string -> option vector).
Context {E : Type}.
Context (detect_user_emotion : string -> E).
Context (get_emotion_context_for_prompt : string -> string).
Context (llm_reply : list string -> string -> option string).
Context (str_exn : exn -> string).

(** X19. An unknown agent costs nothing: when no record [<id>.json] under
    ["agents"] parses as JSON, [answer_question] for that id returns the
    "couldn't find the agent" message with no sources, and neither the
    embedding provider nor the language model is called. *)
Theorem answer_question_unknown_agent
    (vm : VectorStoreManager) (question a : string)
    (history : option (list (string * string))) (w : world) (llm_log : list string) :
  a ≠ "" →
  (∀ data, files w !! agent_file "agents" a ≠ Some (Json data)) →
  let out := answer_question embed_query_reply detect_user_emotion
               get_emotion_context_for_prompt llm_reply str_exn
               vm question history (Some a) w llm_log in
  out.1.1 = Returned ("I'm sorry, I couldn't find the agent with ID " +:+ a +:+ ".")
                     [] (detect_user_emotion question) ∧
  gw_log out.1.2 = gw_log w ∧ files out.1.2 = files w ∧
  out.2 = llm_log.
Proof.
  intros Hne Hnofile out. unfold out, answer_question, answer_question_docs.
  destruct a as [|c a']; [done|]. set (id := String c a') in *.
  destruct (AgentTools_init_world "agents" "vector_store" w) as (Hf & Hex & Hlog).
  pose proof (AgentTools_init_agents "agents" "vector_store" w) as Hag.
  destruct (AgentTools_init "agents" "vector_store" w) as [tools w1].
  simpl in Hf, Hex, Hlog, Hag. rewrite Hag.
  destruct (_load_agents "agents" w1 !! id) as [data|] eqn:Hload.
  { apply load_agents_lookup in Hload as [_ Hload]; [|done].
    rewrite Hf in Hload. by destruct (Hnofile data). }
  done.
Qed.

(** X20. An agent never trained is not searched: with a record that names
    no vector store path, [answer_question] returns the "haven't been
    trained" message with no sources, and neither the embedding provider
    nor the language model is called. *)
Theorem answer_question_untrained_agent
    (vm : VectorStoreManager) (question a : string)
    (history : option (list (string * string))) (w : world) (llm_log : list string)
    (data : agent_data) :
  a ≠ "" → has_sep a = false →
  files w !! agent_file "agents" a = Some (Json data) →
  data !! "vector_store_path" = None →
  let out := answer_question embed_query_reply detect_user_emotion
               get_emotion_context_for_prompt llm_reply str_exn
               vm question history (Some a) w llm_log in
  out.1.1 = Returned "I'm sorry, but I haven't been trained with any knowledge yet. Please train me with some documents or URLs first."
                     [] (detect_user_emotion question) ∧
  gw_log out.1.2 = gw_log w ∧ files out.1.2 = files w ∧
  out.2 = llm_log.
Proof.
  intros Hne Hsep Hfile Hpath out. unfold out, answer_question, answer_question_docs.
  destruct a as [|c a']; [done|]. set (id := String c a') in *.
  destruct (AgentTools_init_world "agents" "vector_store" w) as (Hf & Hex & Hlog).
  pose proof (AgentTools_init_agents "agents" "vector_store" w) as Hag.
  destruct (AgentTools_init "agents" "vector_store" w) as [tools w1].
  simpl in Hf, Hex, Hlog, Hag. rewrite Hag.
  assert (_load_agents "agents" w1 !! id = Some data) as ->.
  { apply load_agents_lookup; [done|]. split; [done|]. by rewrite Hf. }
  rewrite Hpath. done.
Qed.

Lemma answer_question_docs_at_most_five vm question agent_id w docs w' :
  answer_question_docs embed_query_reply vm question agent_id w
  = (Ok (Docs docs), w') →
  (length docs ≤ 5)%nat.
Proof.
  assert (∀ mgr w0 rs w1,
            similarity_search embed_query_reply mgr question 5 w0 = (Ok rs, w1) →
            (length rs ≤ 5)%nat) as Hfive.
  { intros mgr w0 rs w1 Hs.
    pose proof (similarity_search_length embed_query_reply mgr question 5 w0 rs)
      as Hlen. rewrite Hs in Hlen. specialize (Hlen ltac:(lia) eq_refl).
    simpl in Hlen. lia. }
  unfold answer_question_docs. intros Hq.
  destruct agent_id as [[|c a]|].
  - destruct (similarity_search embed_query_reply vm question 5 w)
      as [[rs|e] w1] eqn:Hs; [|done]. injection Hq as <- _. by eapply Hfive.
  - destruct (AgentTools_init "agents" "vector_store" w) as [tools w1].
    destruct (agents tools !! String c a) as [agent|]; [|done].
    destruct (agent !! "vector_store_path") as [[|c' p]|]; try done.
    destruct (os_path_exists _ _); [|done].
    destruct (VectorStoreManager_init _ w1) as [mgr w2].
    destruct (similarity_search embed_query_reply mgr question 5 w2)
      as [[rs|e] w3] eqn:Hs; [|done]. injection Hq as <- _. by eapply Hfive.
  - destruct (similarity_search embed_query_reply vm question 5 w)
      as [[rs|e] w1] eqn:Hs; [|done]. injection Hq as <- _. by eapply Hfive.
Qed.

(** X21. What an answer carries: whenever [answer_question] returns, it
    names at most five sources, reports the emotion detected in the
    question, and has sent at most one prompt to the language model. *)
Theorem answer_question_returns_at_most_five_sources
    (vm : VectorStoreManager) (question : string)
    (history : option (list (string * string))) (agent_id : option string)
    (w : world) (llm_log : list string)
    (answer : string) (sources : list meta) (emotion_data : E) :
  let out := answer_question embed_query_reply detect_user_emotion
               get_emotion_context_for_prompt llm_reply str_exn
               vm question history agent_id w llm_log in
  out.1.1 = Returned answer sources emotion_data →
  (length sources ≤ 5)%nat ∧
  emotion_data = detect_user_emotion question ∧
  (out.2 = llm_log ∨ ∃ prompt, out.2 = llm_log ++ [prompt]).
Proof.
  intros out. unfold out, answer_question.
  destruct (answer_question_docs embed_query_reply vm question agent_id w)
    as [[[docs| | |e]|e] w1] eqn:Hq; simpl.
  - apply answer_question_docs_at_most_five in Hq.
    destruct (llm_reply llm_log _); [|done].
    intros [= <- <- <-]. rewrite length_fmap. split_and!; [done|done|eauto].
  - intros [= <- <- <-]. split_and!; [simpl; lia|done|by left].
  - intros [= <- <- <-]. split_and!; [simpl; lia|done|by left].
  - intros [= <- <- <-]. split_and!; [simpl; lia|done|by left].
  - done.
Qed.

(** X22. Old exchanges do not count: with a chat history of more than
    eight exchanges, [answer_question] does exactly what it does with the
    last eight alone: the same prompt, the same answer and sources. *)
Theorem answer_question_history_window
    (vm : VectorStoreManager) (question : string) (agent_id : option string)
    (w : world) (llm_log : list string) (old recent : list (string * string)) :
  length recent = 8%nat →
  answer_question embed_query_reply detect_user_emotion
    get_emotion_context_for_prompt llm_reply str_exn
    vm question (Some (old ++ recent)) agent_id w llm_log
  = answer_question embed_query_reply detect_user_emotion
      get_emotion_context_for_prompt llm_reply str_exn
      vm question (Some recent) agent_id w llm_log.
Proof.
  intros H8. unfold answer_question. simpl.
  pose proof (format_history_window old recent) as Hall.
  pose proof (format_history_window [] recent) as Hrec.
  rewrite app_nil_l in Hrec.
  rewrite Hall, Hrec by (lia || auto). done.
Qed.

End BotFacts.

(** * More of the model on concrete inputs *)

Lemma init_without_snapshot_witness :
  (VectorStoreManager_init "vs" ex_corrupt_world).1 = VSM "vs" [] [] [].
Proof.
  apply init_without_snapshot. intros docs embs metas. vm_compute. discriminate.
Defined.

Lemma similarity_search_count_witness :
  ∃ idxs results,
    (similarity_search ex_embed_query ex_store_xyz "q" 5 ex_world).1 = Ok results ∧
    Forall2 (is_result_for ex_store_xyz) idxs results ∧ NoDup idxs ∧
    length results = 3%nat.
Proof.
  apply (similarity_search_count ex_embed_query ex_store_xyz "q" 5 ex_world
           [1%float; 0%float]); [lia|reflexivity|reflexivity|].
  intros e He.
  repeat (apply elem_of_cons in He as [->|He];
          [eexists; vm_compute; reflexivity|]).
  by apply elem_of_nil in He.
Defined.

Lemma similarity_search_at_most_k_witness :
  (length [SearchResult "x" ∅] ≤ 1)%nat ∧
  ∀ r, r ∈ [SearchResult "x" ∅] → page_content r ∈ documents ex_store_xyz.
Proof.
  apply (similarity_search_at_most_k ex_embed_query ex_store_xyz "q" 1 ex_world);
    [lia|vm_compute; reflexivity].
Defined.

Lemma similarity_search_best_first_witness :
  ∃ i0 s0 r0 rest,
    (similarity_search ex_embed_query ex_store_xyz "q" 2 ex_world).1
    = Ok (r0 :: rest) ∧
    is_result_for ex_store_xyz i0 r0 ∧
    similarity_of ex_store_xyz [1%float; 0%float] i0 = Some s0 ∧
    ∀ j sj, similarity_of ex_store_xyz [1%float; 0%float] j = Some sj →
            PrimFloat.leb sj s0 = true.
Proof.
  apply (similarity_search_best_first ex_embed_query ex_store_xyz "q" 2 ex_world
           [1%float; 0%float]); [lia|discriminate|reflexivity|reflexivity|].
  intros e He.
  repeat (apply elem_of_cons in He as [->|He];
          [eexists; split; vm_compute; reflexivity|]).
  by apply elem_of_nil in He.
Defined.

Lemma load_agents_spec_witness :
  _load_agents "agents" ex_tools_world !! "a" = Some {[ "name" := "A" ]}.
Proof.
  apply (load_agents_spec "agents" ex_tools_world "a" {[ "name" := "A" ]});
    [vm_compute; reflexivity|].
  split; vm_compute; reflexivity.
Defined.

Lemma create_agent_persisted_witness :
  let out := create_agent ex_tools "N" "Hello" "D" "u-1" "t1" "t2" ex_tools_world in
  agents (AgentTools_init (base_dir ex_tools) "vector_store" out.2).1 !! "u-1"
  = Some (created_agent out.1.1).
Proof.
  intros out.
  apply (create_agent_persisted ex_tools "N" "Hello" "D" "u-1" "t1" "t2"
           ex_tools_world "vector_store" eq_refl).
Defined.

Lemma ex_agent_b_known : agents ex_tools !! "b" = Some {[ "name" := "B" ]}.
Proof. vm_compute. reflexivity. Qed.

Lemma ex_agent_a_known : agents ex_tools !! "a" = Some {[ "name" := "A" ]}.
Proof. vm_compute. reflexivity. Qed.

Lemma train_agent_stores_with_source_witness :
  let out := train_agent_from_text ex_split ex_embed_documents ex_tools
               "b" "what b knows" "notes" "t" ex_tools_world in
  stored_lists out.2 (pkl_path (agent_vector_dir "vector_store" "b"))
  = (["what b knows"], [[1%float; 0%float]], [{[ "source" := "notes" ]}]).
Proof.
  intros out.
  exact (proj1 (train_agent_stores_with_source ex_split ex_embed_documents
                  ex_tools "b" "what b knows" "notes" "t" ex_tools_world
                  {[ "name" := "B" ]} [[1%float; 0%float]]
                  ex_agent_b_known ltac:(discriminate) eq_refl)).
Defined.

Lemma train_agent_provider_failure_witness :
  let out := train_agent_from_text ex_split ex_embed_down ex_tools
               "b" "what b knows" "notes" "t" ex_tools_world in
  out.1.1 = Failure (Caught EmbeddingError) ∧ out.1.2 = ex_tools ∧
  files out.2 = files ex_tools_world.
Proof.
  intros out.
  apply (train_agent_provider_failure ex_split ex_embed_down ex_tools
           "b" "what b knows" "notes" "t" ex_tools_world {[ "name" := "B" ]}
           ex_agent_b_known); [discriminate|reflexivity].
Defined.

Lemma train_agent_without_chunks_witness :
  let out := train_agent_from_text ex_split ex_embed_down ex_tools
               "b" "" "notes" "t" ex_tools_world in
  out.1.1 = Success "Agent 'B' trained successfully" ∧
  files out.2 !! pkl_path (agent_vector_dir "vector_store" "b") = None.
Proof.
  intros out.
  destruct (train_agent_without_chunks ex_split ex_embed_down ex_tools
              "b" "" "notes" "t" ex_tools_world {[ "name" := "B" ]} "B"
              ex_agent_b_known eq_refl eq_refl) as (Hreply & _ & Hfile & _).
  split; [exact Hreply|]. etrans; [exact Hfile|]. vm_compute. reflexivity.
Defined.

Lemma trained_agent_is_searched_witness :
  ∃ docs w',
    answer_question_docs ex_embed_query ex_empty_store "q" (Some "b")
      ex_trained_b.2 = (Ok (Docs docs), w') ∧
    ∀ r, r ∈ docs →
      page_content r
      ∈ stored_documents ex_trained_b.2
          (pkl_path (agent_vector_dir "vector_store" "b")).
Proof.
  apply (trained_agent_is_searched ex_split ex_embed_documents ex_embed_query
           ex_tools "b" "what b knows" "user_input" "2024-01-01T00:00:00" "q"
           "Agent 'B' trained successfully" ex_empty_store ex_tools_world);
    [reflexivity|reflexivity|discriminate|vm_compute; reflexivity].
Defined.

Lemma train_agent_from_url_source_witness :
  let out := train_agent_from_url ex_split ex_embed_documents ex_extract
               ex_tools "b" "http://x" "t" ex_tools_world in
  stored_lists out.2 (pkl_path (agent_vector_dir "vector_store" "b"))
  = (["page text"], [[1%float; 0%float]], [{[ "source" := "url:http://x" ]}]).
Proof.
  intros out.
  exact (proj1 (train_agent_from_url_source ex_split ex_embed_documents
                  ex_extract ex_tools "b" "http://x" "t" ex_tools_world
                  {[ "name" := "B" ]} ex_agent_b_known)
           "page text" [[1%float; 0%float]] eq_refl ltac:(discriminate)
           ltac:(discriminate) eq_refl).
Defined.

Lemma add_knowledge_leaves_agents_witness :
  let out := add_knowledge ex_split ex_embed_documents ex_tools "fact"
               ex_trained_b.2 in
  stored_lists out.2 (pkl_path (agent_vector_dir "vector_store" "b"))
  = stored_lists ex_trained_b.2 (pkl_path (agent_vector_dir "vector_store" "b")).
Proof.
  intros out.
  destruct (add_knowledge_leaves_agents ex_split ex_embed_documents ex_tools
              "fact" ex_trained_b.2 eq_refl) as (_ & Hagents & _).
  exact (Hagents "b" eq_refl).
Defined.

Lemma delete_agent_keeps_snapshot_witness :
  let out := delete_agent ex_trained_b.1.2 "b" ex_trained_b.2 in
  out.1.1 = Deleted ∧
  agents (AgentTools_init "agents" "vector_store" out.2).1 !! "b" = None ∧
  stored_lists out.2 (pkl_path (agent_vector_dir "vector_store" "b"))
  = stored_lists ex_trained_b.2 (pkl_path (agent_vector_dir "vector_store" "b")).
Proof.
  intros out.
  assert (∃ data, agents ex_trained_b.1.2 !! "b" = Some data ∧ data ≠ ∅)
    as (data & Hdata & Hne).
  { eexists. split; [vm_compute; reflexivity|].
    intros H. apply (f_equal (λ m : agent_data, m !! "name")) in H.
    vm_compute in H. discriminate. }
  destruct (delete_agent_keeps_snapshot ex_trained_b.1.2 "b" ex_trained_b.2
              data "vector_store" Hdata Hne ltac:(discriminate))
    as (Hreply & _ & Hload & _ & Hsnap).
  - vm_compute. discriminate.
  - split; [exact Hreply|]. split; [exact Hload|exact Hsnap].
Defined.

Lemma format_history_last_eight_witness :
  _format_history ([("old", "gone")] ++ ex_history)
  = py_join newline (history_lines ex_history) ∧
  length (history_lines ex_history) = 16%nat.
Proof.
  apply (format_history_last_eight [("old", "gone")] ex_history);
    [simpl; lia|right; reflexivity].
Defined.

Lemma answer_question_unknown_agent_witness :
  (answer_question ex_embed_query ex_detect ex_emotion_context ex_llm ex_str_exn
     ex_empty_store "q" None (Some "nobody") ex_agents_world []).2 = [].
Proof.
  destruct (answer_question_unknown_agent ex_embed_query ex_detect
              ex_emotion_context ex_llm ex_str_exn ex_empty_store "q" "nobody"
              None ex_agents_world []) as (_ & _ & _ & Hlog).
  - discriminate.
  - intros data. vm_compute. discriminate.
  - exact Hlog.
Defined.

Lemma answer_question_untrained_agent_witness :
  (answer_question ex_embed_query ex_detect ex_emotion_context ex_llm ex_str_exn
     ex_empty_store "q" None (Some "a") ex_agents_world []).1.1
  = Returned "I'm sorry, but I haven't been trained with any knowledge yet. Please train me with some documents or URLs first."
             [] "neutral".
Proof.
  destruct (answer_question_untrained_agent ex_embed_query ex_detect
              ex_emotion_context ex_llm ex_str_exn ex_empty_store "q" "a"
              None ex_agents_world [] {[ "name" := "A" ]}) as (Hreply & _).
  - discriminate.
  - reflexivity.
  - vm_compute. reflexivity.
  - vm_compute. reflexivity.
  - exact Hreply.
Defined.

Lemma answer_question_returns_at_most_five_sources_witness :
  (length [(∅ : meta); ∅; ∅] ≤ 5)%nat ∧ "neutral" = ex_detect "q".
Proof.
  destruct (answer_question_returns_at_most_five_sources ex_embed_query
              ex_detect ex_emotion_context ex_llm ex_str_exn
              ex_store_xyz "q" None None ex_world []
              "an answer" [∅; ∅; ∅] "neutral") as (Hlen & Hemo & _).
  - vm_compute. reflexivity.
  - split; [exact Hlen|exact Hemo].
Defined.

Lemma answer_question_history_window_witness :
  answer_question ex_embed_query ex_detect ex_emotion_context ex_llm ex_str_exn
    ex_store_xyz "q" (Some ([("old", "gone")] ++ ex_history)) None ex_world []
  = answer_question ex_embed_query ex_detect ex_emotion_context ex_llm ex_str_exn
      ex_store_xyz "q" (Some ex_history) None ex_world [].
Proof.
  apply (answer_question_history_window ex_embed_query ex_detect
           ex_emotion_context ex_llm ex_str_exn ex_store_xyz "q" None ex_world []
           [("old", "gone")] ex_history eq_refl).
Defined.
